(** * sub-scan: the QR ticket scanner of [src/App.jsx]

    A shallow embedding of the [App] component: its React state, its
    refs, the scan handler, the asynchronous camera handlers, and the
    event loop that interleaves them. *)

From Stdlib Require Import ZArith Lia Ascii String.
From Stdlib Require QArith Qminmax.
From stdpp Require Import base gmap sets list strings.

Local Open Scope string_scope.
Local Open Scope Z_scope.

(** ** Data *)

(** [scanStatus]: ['success'], ['duplicate'] ([null] is [None]). *)
Inductive ScanStatus : Type := StatusSuccess | StatusDuplicate.

(** [permissionStatus]: ['prompt'], ['granted'], ['denied']. *)
Inductive PermissionStatus : Type := PermPrompt | PermGranted | PermDenied.

(** The decoder's [decodedResult]; the handler only stores it. *)
Definition DecodedResult : Type := string.

(** The object given to [setScannedData].  [sd_timestamp] is the clock
    reading that [toLocaleTimeString] renders. *)
Record ScannedData : Type := MkScannedData {
  sd_text : string;
  sd_timestamp : Z;
  sd_raw : DecodedResult;
  sd_isDuplicate : bool
}.

(** An element of [scanHistory]. *)
Record HistoryEntry : Type := MkHistoryEntry {
  he_text : string;
  he_timestamp : Z;
  he_isDuplicate : bool
}.

(** [lastScanRef.current]; [ls_code] is [None] for the initial [null]. *)
Record LastScan : Type := MkLastScan {
  ls_code : option string;
  ls_timestamp : Z
}.

(** A thrown value: [err.name] and [err.message].  A missing property
    is the empty string, which every test of the source ([===] against
    a non-empty literal, [&&], [||], [startsWith]) treats alike.  The
    values covered are those whose [name] and [message] can be read and
    are strings or missing ([Error], [DOMException], a string); a
    promise rejected with [undefined] or [null], on which reading
    [err.message] itself throws, is not among them. *)
Record Exn : Type := MkExn {
  exn_name : string;
  exn_message : string
}.

(** What the handlers ask of the feedback backends. *)
Inductive SoundType : Type := SoundSuccess | SoundError.
Inductive Cue : Type :=
  | PlaySound (type : SoundType)
  | Vibrate (pattern : list Z).

(** The [video] element of the reader, as [checkCameraWorking] reads
    it. *)
Record Video : Type := MkVideo {
  readyState : Z;
  videoWidth : Z;
  videoHeight : Z
}.

(** A pending [setTimeout] of [handleScanSuccess]: its callback clears
    the displayed result; [due] is the time it fires. *)
Record Timer : Type := MkTimer { due : Z }.

(** [window.location], whether [navigator.mediaDevices.getUserMedia]
    and [navigator.permissions.query] exist, and whether
    [document.getElementById("reader")] finds the element. *)
Record World : Type := MkWorld {
  protocol : string;
  hostname : string;
  mediaDevices : bool;
  permissions : bool;
  readerElement : bool
}.

(** The [useState] cells. *)
Record UI : Type := MkUI {
  isScanning : bool;
  scannedData : option ScannedData;
  scanStatus : option ScanStatus;
  scanHistory : list HistoryEntry;
  error : option string;
  isInitializing : bool;
  permissionStatus : PermissionStatus;
  showPermissionPrompt : bool;
  isSecureContext : bool
}.

(** The [useRef] cells.  [html5QrCodeRef] holds the number of the
    [Html5Qrcode] instance it points to. *)
Record Refs : Type := MkRefs {
  html5QrCodeRef : option nat;
  lastScanRef : LastScan;
  scannedCodesRef : gset string;
  wasScanningRef : bool
}.

(** What the component has caused outside itself: the pending
    auto-clear timers (oldest first), the feedback requested (oldest
    first), the number of [Html5Qrcode] instances created, and the
    instances whose camera stream is running. *)
Record Outside : Type := MkOutside {
  timers : list Timer;
  feedback : list Cue;
  instances : nat;
  streams : list nat
}.

Record State : Type := MkState {
  ui : UI;
  refs : Refs;
  outside : Outside;
  world : World
}.

Definition DEBOUNCE_TIME : Z := 2000.

(** ** Assignments *)

Definition upd_ui (f : UI -> UI) (s : State) : State :=
  MkState (f (ui s)) (refs s) (outside s) (world s).
Definition upd_refs (f : Refs -> Refs) (s : State) : State :=
  MkState (ui s) (f (refs s)) (outside s) (world s).
Definition upd_outside (f : Outside -> Outside) (s : State) : State :=
  MkState (ui s) (refs s) (f (outside s)) (world s).

Definition setIsScanning (v : bool) : State -> State :=
  upd_ui (fun '(MkUI _ b c d e f g h i) => MkUI v b c d e f g h i).
Definition setScannedData (v : option ScannedData) : State -> State :=
  upd_ui (fun '(MkUI a _ c d e f g h i) => MkUI a v c d e f g h i).
Definition setScanStatus (v : option ScanStatus) : State -> State :=
  upd_ui (fun '(MkUI a b _ d e f g h i) => MkUI a b v d e f g h i).
(** [setScanHistory] is always called with an updater [prev => ...]. *)
Definition setScanHistory (v : list HistoryEntry -> list HistoryEntry)
  : State -> State :=
  upd_ui (fun '(MkUI a b c d e f g h i) => MkUI a b c (v d) e f g h i).
Definition setError (v : option string) : State -> State :=
  upd_ui (fun '(MkUI a b c d _ f g h i) => MkUI a b c d v f g h i).
Definition setIsInitializing (v : bool) : State -> State :=
  upd_ui (fun '(MkUI a b c d e _ g h i) => MkUI a b c d e v g h i).
Definition setPermissionStatus (v : PermissionStatus) : State -> State :=
  upd_ui (fun '(MkUI a b c d e f _ h i) => MkUI a b c d e f v h i).
Definition setShowPermissionPrompt (v : bool) : State -> State :=
  upd_ui (fun '(MkUI a b c d e f g _ i) => MkUI a b c d e f g v i).
Definition setIsSecureContext (v : bool) : State -> State :=
  upd_ui (fun '(MkUI a b c d e f g h _) => MkUI a b c d e f g h v).

Definition set_html5QrCodeRef (v : option nat) : State -> State :=
  upd_refs (fun '(MkRefs _ b c d) => MkRefs v b c d).
Definition set_lastScanRef (v : LastScan) : State -> State :=
  upd_refs (fun '(MkRefs a _ c d) => MkRefs a v c d).
Definition set_scannedCodesRef (v : gset string) : State -> State :=
  upd_refs (fun '(MkRefs a b _ d) => MkRefs a b v d).
Definition set_wasScanningRef (v : bool) : State -> State :=
  upd_refs (fun '(MkRefs a b c _) => MkRefs a b c v).

(** [setTimeout(clear, ms)] called at time [now]. *)
Definition setTimeout_clear (now ms : Z) : State -> State :=
  upd_outside (fun '(MkOutside t f n r) =>
    MkOutside (t ++ [MkTimer (now + ms)]) f n r).
Definition request (c : Cue) : State -> State :=
  upd_outside (fun '(MkOutside t f n r) => MkOutside t (f ++ [c]) n r).
Definition set_timers (v : list Timer) : State -> State :=
  upd_outside (fun '(MkOutside _ f n r) => MkOutside v f n r).
Definition set_instances (v : nat) : State -> State :=
  upd_outside (fun '(MkOutside t f _ r) => MkOutside t f v r).
Definition set_streams (v : list nat) : State -> State :=
  upd_outside (fun '(MkOutside t f n _) => MkOutside t f n v).

(** ** Feedback *)

(** [playSound(type)]: one request to the audio backend. *)
Definition playSound (type : SoundType) : State -> State :=
  request (PlaySound type).
(** [vibrate(pattern)]. *)
Definition vibrate (pattern : list Z) : State -> State :=
  request (Vibrate pattern).

Definition triggerSuccessFeedback (s : State) : State :=
  vibrate [100; 50; 100] (playSound SoundSuccess s).
Definition triggerErrorFeedback (s : State) : State :=
  vibrate [200; 100; 200] (playSound SoundError s).

(** ** The scan handler *)

(** The branch [handleScanSuccess] takes. *)
Inductive ScanOutcome : Type := Suppressed | Duplicate | Accepted.

(** The debounce test:
    [lastScan.code === decodedText && (now - lastScan.timestamp) < DEBOUNCE_TIME]. *)
Definition debounced (lastScan : LastScan) (decodedText : string) (now : Z)
  : bool :=
  bool_decide (ls_code lastScan = Some decodedText)
  && (now - ls_timestamp lastScan <? DEBOUNCE_TIME).

(** [prev => [entry, ...prev.slice(0, 9)]]. *)
Definition push_history (entry : HistoryEntry) (prev : list HistoryEntry)
  : list HistoryEntry :=
  entry :: take 9 prev.

(** [handleScanSuccess(decodedText, decodedResult)], with the reading
    [now] of [Date.now()].  It returns the branch taken and the state
    it leaves. *)
Definition handleScanSuccess (decodedText : string)
    (decodedResult : DecodedResult) (now : Z) (s : State)
  : ScanOutcome * State :=
  let lastScan := lastScanRef (refs s) in
  if debounced lastScan decodedText now then (Suppressed, s)
  else
    let s := set_lastScanRef (MkLastScan (Some decodedText) now) s in
    let isDuplicate := bool_decide (decodedText ∈ scannedCodesRef (refs s)) in
    if isDuplicate then
      let s := setScanStatus (Some StatusDuplicate) s in
      let s := setScannedData
                 (Some (MkScannedData decodedText now decodedResult true)) s in
      let s := triggerErrorFeedback s in
      let s := setTimeout_clear now 2000 s in
      (Duplicate, s)
    else
      let s := set_scannedCodesRef
                 ({[ decodedText ]} ∪ scannedCodesRef (refs s)) s in
      let s := setScanStatus (Some StatusSuccess) s in
      let s := setScannedData
                 (Some (MkScannedData decodedText now decodedResult false)) s in
      let s := triggerSuccessFeedback s in
      let s := setScanHistory
                 (push_history (MkHistoryEntry decodedText now false)) s in
      let s := setTimeout_clear now 2000 s in
      (Accepted, s).

(** The callback of an auto-clear timer:
    [setScannedData(null); setScanStatus(null)]. *)
Definition clear_display (s : State) : State :=
  setScanStatus None (setScannedData None s).

(** The [i]-th pending auto-clear timer fires. *)
Definition fire_timer (i : nat) (s : State) : State :=
  match timers (outside s) !! i with
  | Some _ => clear_display (set_timers (delete i (timers (outside s))) s)
  | None => s
  end.

(** ** Asynchronous functions *)

(** What a settled promise hands back: nothing the handlers use, or the
    [state] of a permission query. *)
Inductive Value : Type :=
  | Undefined
  | PermState (st : PermissionStatus).

Inductive Outcome : Type :=
  | Resolved (v : Value)
  | Rejected (e : Exn).

(** The first argument of [html5QrCode.start]: an object
    [{ facingMode: mode }] or a string. *)
Inductive Selector : Type :=
  | FacingMode (mode : string)
  | CameraId (id : string).

(** The promises the handlers await.  [DecoderStart h sel],
    [DecoderStop h] and [DecoderClear h] are [start], [stop] and
    [clear] of the [Html5Qrcode] instance number [h]; [Delay ms] is
    [new Promise(resolve => setTimeout(resolve, ms))]. *)
Inductive Call : Type :=
  | GetUserMedia
  | PermissionsQuery
  | DecoderStart (h : nat) (sel : Selector)
  | DecoderStop (h : nat)
  | DecoderClear (h : nat)
  | Delay (ms : Z).

(** The body of an [async] function: it returns, throws, reads or
    assigns the component's state, or awaits a promise and goes on with
    what the promise settles to. *)
Inductive Async (A : Type) : Type :=
  | Ret (a : A)
  | Throw (e : Exn)
  | Read (k : State -> Async A)
  | Assign (f : State -> State) (k : Async A)
  | Await (c : Call) (k : Outcome -> Async A).

Arguments Ret {A} a.
Arguments Throw {A} e.
Arguments Read {A} k.
Arguments Assign {A} f k.
Arguments Await {A} c k.

Fixpoint bind {A B : Type} (m : Async A) (f : A -> Async B) : Async B :=
  match m with
  | Ret a => f a
  | Throw e => Throw e
  | Read k => Read (fun s => bind (k s) f)
  | Assign g k => Assign g (bind k f)
  | Await c k => Await c (fun o => bind (k o) f)
  end.

#[global] Instance Async_ret : MRet Async := @Ret.
#[global] Instance Async_bind : MBind Async := fun A B f m => bind m f.

(** [try { m } catch (err) { h err }]. *)
Fixpoint try_catch {A : Type} (m : Async A) (h : Exn -> Async A) : Async A :=
  match m with
  | Ret a => Ret a
  | Throw e => h e
  | Read k => Read (fun s => try_catch (k s) h)
  | Assign g k => Assign g (try_catch k h)
  | Await c k => Await c (fun o => try_catch (k o) h)
  end.

Definition read {A : Type} (f : State -> A) : Async A :=
  Read (fun s => Ret (f s)).
Definition assign (f : State -> State) : Async unit :=
  Assign f (Ret tt).
(** [await c]: a rejection is thrown at the [await]. *)
Definition await_value (c : Call) : Async Value :=
  Await c (fun o => match o with
                    | Resolved v => Ret v
                    | Rejected e => Throw e
                    end).
Definition await (c : Call) : Async unit :=
  await_value c ;; mret tt.
(** [setTimeout(() => t, ms)] as the last step of a handler. *)
Definition setTimeout (t : Async unit) (ms : Z) : Async unit :=
  Await (Delay ms) (fun _ => t).
(** [if (c) { throw e }]. *)
Definition throw_if (c : bool) (e : Exn) : Async unit :=
  if c then Throw e else mret tt.

(** [new Error(message)]. *)
Definition Error (message : string) : Exn := MkExn "Error" message.
(** Reading a property of [null]. *)
Definition TypeError : Exn :=
  MkExn "TypeError" "Cannot read properties of null".
(** [message || fallback]. *)
Definition or_else (message fallback : string) : string :=
  if bool_decide (message = "") then fallback else message.

(** [s.split(':')]. *)
Fixpoint split_colon (s : string) : list string :=
  match s with
  | EmptyString => [""]
  | String c r =>
      if Ascii.eqb c ":"%char then "" :: split_colon r
      else match split_colon r with
           | x :: xs => String c x :: xs
           | [] => [String c ""]
           end
  end.

(** How far an [async] function gets before it must wait. *)
Inductive Susp (A : Type) : Type :=
  | Finished (a : A)
  | Threw (e : Exn)
  | Blocked (c : Call) (k : Outcome -> Async A).

Arguments Finished {A} a.
Arguments Threw {A} e.
Arguments Blocked {A} c k.

(** Run up to the next [await]. *)
Fixpoint run {A : Type} (m : Async A) (s : State) : State * Susp A :=
  match m with
  | Ret a => (s, Finished a)
  | Throw e => (s, Threw e)
  | Read k => run (k s) s
  | Assign f k => run k (f s)
  | Await c k => (s, Blocked c k)
  end.

(** What a settled call has done to the camera: a [start] that
    resolves leaves the instance's stream running, a [stop] that
    resolves ends it. *)
Definition effect (c : Call) (o : Outcome) (s : State) : State :=
  match c, o with
  | DecoderStart h _, Resolved _ =>
      set_streams (h :: streams (outside s)) s
  | DecoderStop h, Resolved _ =>
      set_streams (filter (fun x => x ≠ h) (streams (outside s))) s
  | _, _ => s
  end.

(** One invocation run alone: each promise it awaits settles to the
    next outcome of [os]; the calls made are recorded in order. *)
Fixpoint drive {A : Type} (os : list Outcome) (r : State * Susp A)
  : State * Susp A * list Call :=
  match r, os with
  | (s, Blocked c k), o :: os' =>
      let '(r', cs) := drive os' (run (k o) (effect c o s)) in
      (r', c :: cs)
  | _, _ => (r, [])
  end.

Definition call {A : Type} (m : Async A) (os : list Outcome) (s : State)
  : State * Susp A * list Call :=
  drive os (run m s).

(** ** The camera handlers *)

#[global] Instance PermissionStatus_eq_dec : EqDecision PermissionStatus.
Proof. solve_decision. Defined.

(** [checkSecureContext()]. *)
Definition checkSecureContext : Async bool :=
  w ← read world;
  let isLocalhost := bool_decide (hostname w = "localhost")
                     || bool_decide (hostname w = "127.0.0.1") in
  let isHTTPS := bool_decide (protocol w = "https:") in
  let isSecure := isHTTPS || isLocalhost in
  assign (setIsSecureContext isSecure) ;;
  mret isSecure.

(** [new Html5Qrcode("reader")]: the next instance number. *)
Definition new_Html5Qrcode : Async nat :=
  h ← read (fun s => instances (outside s)) ;
  assign (set_instances (S h)) ;;
  mret h.

(** [scanner.isScanning()]: the instance's stream is running. *)
Definition decoder_isScanning (h : nat) : Async bool :=
  read (fun s => bool_decide (h ∈ streams (outside s))).

(** [await html5QrCodeRef.current.m()]: the ref is read at the call,
    and calling a method of [null] throws. *)
Definition await_ref (m : nat -> Call) : Async unit :=
  r ← read (fun s => html5QrCodeRef (refs s)) ;
  match r with
  | Some h => await (m h)
  | None => Throw TypeError
  end.

(** [startScanner()].  The three [html5QrCode.start] calls share the
    configuration and the callbacks; only the selector differs.  The
    check of the video element 1500 ms after a start only logs. *)
Definition startScanner : Async unit :=
  try_catch
    (w ← read world ;
     throw_if (negb (readerElement w))
       (Error "Scanner container not found. Please refresh the page.") ;;
     html5QrCode ← new_Html5Qrcode ;
     assign (set_html5QrCodeRef (Some html5QrCode)) ;;
     await (Delay 100) ;;
     try_catch
       (await (DecoderStart html5QrCode (FacingMode "environment")))
       (fun backCameraError =>
          try_catch
            (await (DecoderStart html5QrCode (CameraId "environment")))
            (fun stringError =>
               await (DecoderStart html5QrCode (FacingMode "user")))) ;;
     assign (setIsScanning true) ;;
     assign (setIsInitializing false) ;;
     assign (set_wasScanningRef true))
    (fun err =>
       assign (setError (Some (or_else (exn_message err)
         "Failed to start camera. Please check permissions."))) ;;
       assign (setIsScanning false) ;;
       assign (setIsInitializing false) ;;
       r ← read (fun s => html5QrCodeRef (refs s)) ;
       match r with
       | Some scanner =>
           try_catch
             (running ← decoder_isScanning scanner ;
              (if running : bool then await (DecoderStop scanner)
               else mret tt) ;;
              await (DecoderClear scanner))
             (fun cleanupErr => mret tt) ;;
           assign (set_html5QrCodeRef None)
       | None => mret tt
       end).

(** [stopScanning()]. *)
Definition stopScanning : Async unit :=
  try_catch
    (r ← read (fun s => html5QrCodeRef (refs s)) ;
     match r with
     | Some _ =>
         await_ref DecoderStop ;;
         await_ref DecoderClear ;;
         assign (set_html5QrCodeRef None)
     | None => mret tt
     end ;;
     assign (setIsScanning false) ;;
     assign (set_wasScanningRef false))
    (fun err => assign (set_wasScanningRef false)).

(** The message set when the camera permission is denied. *)
Definition permission_denied_message : string :=
  "Camera permission denied. Please allow camera access in your browser settings and try again.".

(** [requestCameraPermission()]. *)
Definition requestCameraPermission : Async unit :=
  try_catch
    (assign (setError None) ;;
     assign (setIsInitializing true) ;;
     assign (setShowPermissionPrompt false) ;;
     secure ← checkSecureContext ;
     w ← read world ;
     throw_if (negb secure)
       (Error ("HTTPS_REQUIRED:" ++ protocol w ++ ":" ++ hostname w)) ;;
     throw_if (negb (mediaDevices w))
       (Error "Camera not supported. Please use a device with a camera.") ;;
     await GetUserMedia ;;
     assign (setPermissionStatus PermGranted) ;;
     await (Delay 300) ;;
     startScanner)
    (fun err =>
       assign (setIsInitializing false) ;;
       if String.prefix "HTTPS_REQUIRED" (exn_message err) then
         let hostname := nth 2 (split_colon (exn_message err)) "undefined" in
         assign (setPermissionStatus PermDenied) ;;
         assign (setError (Some ("HTTPS_REQUIRED:" ++ hostname)))
       else if bool_decide (exn_name err = "NotAllowedError")
               || bool_decide (exn_name err = "PermissionDeniedError") then
         assign (setPermissionStatus PermDenied) ;;
         assign (setError (Some permission_denied_message))
       else if bool_decide (exn_name err = "NotFoundError")
               || bool_decide (exn_name err = "DevicesNotFoundError") then
         assign (setError (Some "No camera found. Please use a device with a camera."))
       else
         assign (setError (Some (or_else (exn_message err)
           "Failed to access camera. Please check permissions.")))).

(** [checkCameraWorking()]; [video] is what
    [document.querySelector("#reader video")] finds. *)
Definition checkCameraWorking (video : option Video) : bool :=
  match video with
  | Some v => (2 <=? readyState v) && (0 <? videoWidth v)
              && (0 <? videoHeight v)
  | None => false
  end.

(** [restartScannerIfNeeded()].  The callback closes over the
    [isScanning] and [permissionStatus] of its render: [scanning] and
    [permission] are those values; the ref is read when it runs. *)
Definition restartScannerIfNeeded (scanning : bool)
    (permission : PermissionStatus) (video : option Video) : Async unit :=
  s ← read id ;
  if wasScanningRef (refs s)
     && bool_decide (permission = PermGranted) then
    let isWorking := checkCameraWorking video in
    if negb scanning || negb isWorking then
      assign (setIsInitializing true) ;;
      assign (setError None) ;;
      try_catch
        (r ← read (fun s => html5QrCodeRef (refs s)) ;
         match r with
         | Some _ =>
             try_catch
               (await_ref DecoderStop ;; await_ref DecoderClear)
               (fun e => mret tt) ;;
             assign (set_html5QrCodeRef None)
         | None => mret tt
         end ;;
         await (Delay 500) ;;
         startScanner)
        (fun err =>
           assign (setError
             (Some "Camera lost connection. Please refresh the page.")) ;;
           assign (setIsInitializing false) ;;
           assign (set_wasScanningRef false))
    else mret tt
  else mret tt.

(** [autoStartIfPermissionGranted()]. *)
Definition autoStartIfPermissionGranted : Async unit :=
  try_catch
    (secure ← checkSecureContext ;
     if negb secure then mret tt
     else
       w ← read world ;
       if negb (mediaDevices w) then mret tt
       else
         try_catch
           (await GetUserMedia ;;
            assign (setShowPermissionPrompt false) ;;
            assign (setPermissionStatus PermGranted) ;;
            await (Delay 300) ;;
            startScanner)
           (fun err =>
              if bool_decide (exn_name err = "NotAllowedError")
                 || bool_decide (exn_name err = "PermissionDeniedError")
              then assign (setPermissionStatus PermDenied)
              else mret tt))
    (fun err => mret tt).

(** What [checkPermission] and [result.onchange] do with a permission
    state: store it and, when it is ['granted'], hide the prompt; the
    result tells whether to schedule the auto-start. *)
Definition on_permission_state (state : PermissionStatus) : Async bool :=
  assign (setPermissionStatus state) ;;
  if bool_decide (state = PermGranted) then
    assign (setShowPermissionPrompt false) ;; mret true
  else mret false.

(** The mount effect: [checkSecureContext()], then [checkPermission()].
    Its result is the delay of the [setTimeout] that calls
    [autoStartIfPermissionGranted], scheduled outside the [try]. *)
Definition checkPermission : Async unit :=
  delay ← try_catch
    (w ← read world ;
     if permissions w then
       v ← await_value PermissionsQuery ;
       let state := match v with
                    | PermState st => st
                    | Undefined => PermPrompt
                    end in
       auto ← on_permission_state state ;
       mret (if auto : bool then Some 500 else None)
     else mret (Some 1000))
    (fun err => mret (Some 1000)) ;
  match delay with
  | Some ms => setTimeout autoStartIfPermissionGranted ms
  | None => mret tt
  end.

Definition mount : Async unit :=
  checkSecureContext ;; checkPermission.

(** [result.onchange]. *)
Definition permission_onchange (newState : PermissionStatus) : Async unit :=
  auto ← on_permission_state newState ;
  if auto : bool then setTimeout autoStartIfPermissionGranted 500
  else mret tt.

(** [setTimeout(() => { restartScannerIfNeeded() }, 300)] in a
    listener: the callback is the one of the current render. *)
Definition restart_later (video : option Video) : Async unit :=
  s ← read id ;
  setTimeout
    (restartScannerIfNeeded (isScanning (ui s)) (permissionStatus (ui s))
       video)
    300.

(** The [visibilitychange] listener; [visibilityState] is
    [document.visibilityState], and [video] what the restart, 300 ms
    later, finds in the reader. *)
Definition handleVisibilityChange (visibilityState : string)
    (video : option Video) : Async unit :=
  if bool_decide (visibilityState = "visible") then restart_later video
  else if bool_decide (visibilityState = "hidden") then
    s ← read id ;
    assign (set_wasScanningRef (isScanning (ui s)))
  else mret tt.

(** The [focus] listener. *)
Definition handleFocus (video : option Video) : Async unit :=
  restart_later video.

(** The [pageshow] listener; [persisted] is [event.persisted]. *)
Definition handlePageShow (persisted : bool) (video : option Video)
  : Async unit :=
  if persisted then restart_later video else mret tt.

(** ** The event loop *)

(** A suspended [async] function: the promise it waits for and what it
    does once the promise has settled. *)
Record Pending : Type := MkPending {
  p_call : Call;
  p_k : Outcome -> Async unit
}.

(** The component between two events: its state and the suspended
    functions, oldest first. *)
Record Sys : Type := MkSys {
  app : State;
  pool : list Pending
}.

Definition settle (r : State * Susp unit) (ps : list Pending) : Sys :=
  match r with
  | (s, Blocked c k) => MkSys s (ps ++ [MkPending c k])
  | (s, _) => MkSys s ps
  end.

(** A handler is called: it runs up to its first [await]. *)
Definition invoke (t : Async unit) (y : Sys) : Sys :=
  settle (run t (app y)) (pool y).

(** The promise of the [i]-th suspended function settles to [o]: the
    function goes on up to its next [await]. *)
Definition resolve (i : nat) (o : Outcome) (y : Sys) : Sys :=
  match pool y !! i with
  | Some p =>
      settle (run (p_k p o) (effect (p_call p) o (app y)))
             (delete i (pool y))
  | None => y
  end.

Inductive Event : Type :=
  | ClickStart
  | ClickStop
  | Decoded (decodedText : string) (decodedResult : DecodedResult) (now : Z)
  | TimerFires (i : nat)
  | Settles (i : nat) (o : Outcome)
  | VisibilityChange (visibilityState : string) (video : option Video)
  | Focus (video : option Video)
  | PageShow (persisted : bool) (video : option Video)
  | PermissionChange (newState : PermissionStatus)
  | Unmount.

Definition step (e : Event) (y : Sys) : Sys :=
  match e with
  | ClickStart => invoke requestCameraPermission y
  | ClickStop => invoke stopScanning y
  | Decoded decodedText decodedResult now =>
      MkSys (snd (handleScanSuccess decodedText decodedResult now (app y)))
            (pool y)
  | TimerFires i => MkSys (fire_timer i (app y)) (pool y)
  | Settles i o => resolve i o y
  | VisibilityChange visibilityState video =>
      invoke (handleVisibilityChange visibilityState video) y
  | Focus video => invoke (handleFocus video) y
  | PageShow persisted video => invoke (handlePageShow persisted video) y
  | PermissionChange newState => invoke (permission_onchange newState) y
  | Unmount => invoke stopScanning y
  end.

(** What a promise can settle to: a delay only resolves, and only a
    permission query resolves to a permission state. *)
Definition admissible (c : Call) (o : Outcome) : bool :=
  match c, o with
  | Delay _, Resolved Undefined => true
  | Delay _, _ => false
  | PermissionsQuery, Resolved Undefined => false
  | PermissionsQuery, _ => true
  | _, Resolved (PermState _) => false
  | _, _ => true
  end.

(** When an event can happen.  The buttons bound to
    [requestCameraPermission] are rendered when [!isScanning] or when
    an error is shown, the one bound to [stopScanning] when
    [isScanning]; the decoder calls back while a stream is running. *)
Definition enabled (e : Event) (y : Sys) : bool :=
  match e with
  | ClickStart =>
      negb (isScanning (ui (app y)))
      || bool_decide (is_Some (error (ui (app y))))
  | ClickStop => isScanning (ui (app y))
  | Decoded _ _ _ => negb (bool_decide (streams (outside (app y)) = []))
  | TimerFires i => bool_decide (is_Some (timers (outside (app y)) !! i))
  | Settles i o =>
      match pool y !! i with
      | Some p => admissible (p_call p) o
      | None => false
      end
  | VisibilityChange _ _ | Focus _ | PageShow _ _
  | PermissionChange _ | Unmount => true
  end.

(** The [useState] and [useRef] initial values. *)
Definition initial (w : World) : State :=
  MkState (MkUI false None None [] None false PermPrompt true true)
          (MkRefs None (MkLastScan None 0) ∅ false)
          (MkOutside [] [] 0 [])
          w.

(** The component once mounted. *)
Definition boot (w : World) : Sys :=
  invoke mount (MkSys (initial w) []).

Inductive reachable : Sys -> Prop :=
  | reach_boot (w : World) : reachable (boot w)
  | reach_step (e : Event) (y : Sys) :
      reachable y -> enabled e y = true -> reachable (step e y).

(** A sequence of events, each one checked to be enabled. *)
Fixpoint exec (es : list Event) (y : Sys) : option Sys :=
  match es with
  | [] => Some y
  | e :: es' => if enabled e y then exec es' (step e y) else None
  end.

(** ** What the camera handlers leave alone *)

(** The scan ledger and the display: everything [handleScanSuccess]
    and the auto-clear timers own. *)
Definition ledger (s : State)
  : list HistoryEntry * gset string * LastScan * option ScannedData
    * option ScanStatus * list Timer * list Cue :=
  (scanHistory (ui s), scannedCodesRef (refs s), lastScanRef (refs s),
   scannedData (ui s), scanStatus (ui s), timers (outside s),
   feedback (outside s)).

(** No assignment of [m] touches the ledger. *)
Fixpoint quiet {A : Type} (m : Async A) : Prop :=
  match m with
  | Ret _ | Throw _ => True
  | Read k => forall s, quiet (k s)
  | Assign f k => (forall s, ledger (f s) = ledger s) /\ quiet k
  | Await _ k => forall o, quiet (k o)
  end.

(** Every suspended function, however its promise settles, goes on
    without touching the ledger. *)
Definition pool_quiet (y : Sys) : Prop :=
  Forall (fun p => forall o, quiet (p_k p o)) (pool y).

Definition history (y : Sys) : list HistoryEntry := scanHistory (ui (app y)).
Definition seenCodes (y : Sys) : gset string := scannedCodesRef (refs (app y)).

(** ** Scenarios *)

(** A page served over plain HTTP from a LAN address, and one served
    from localhost. *)
Definition lan : World := MkWorld "http:" "192.168.1.5" true true true.
Definition localhost : World := MkWorld "http:" "localhost" true true true.

(** A promise that resolves. *)
Definition ok : Outcome := Resolved Undefined.
(** What [getUserMedia] rejects with when the camera is refused. *)
Definition NotAllowedError : Exn := MkExn "NotAllowedError" "Permission denied".
(** What a decoder that is not running answers to [stop]. *)
Definition not_running : Exn :=
  MkExn "Error" "Cannot stop, scanner is not running or paused.".

(** From mount to a running scanner on localhost: the permission query
    answers ['prompt'], the operator presses the button, the camera is
    granted, and the first [start] resolves. *)
Definition to_active : list Event :=
  [ Settles 0 (Resolved (PermState PermPrompt));
    ClickStart;
    Settles 0 ok;   (* getUserMedia *)
    Settles 0 ok;   (* 300 ms *)
    Settles 0 ok;   (* 100 ms *)
    Settles 0 ok ]. (* start({ facingMode: "environment" }) *)

(** On a running scanner: the operator presses stop, the decoder's
    [stop] and [clear] resolve; the operator presses start again, the
    camera is granted, and the first [start] resolves. *)
Definition stop_and_restart : list Event :=
  [ ClickStop;
    Settles 0 ok;   (* stop() *)
    Settles 0 ok;   (* clear() *)
    ClickStart;
    Settles 0 ok;   (* getUserMedia *)
    Settles 0 ok;   (* 300 ms *)
    Settles 0 ok;   (* 100 ms *)
    Settles 0 ok ]. (* start({ facingMode: "environment" }) *)

(** On a running scanner: the page is hidden and shown again with a
    dead camera stream; the restart stops and clears the old decoder,
    creates a new one and calls its [start], which is still pending. *)
Definition to_restarting : list Event :=
  [ VisibilityChange "hidden" None;
    VisibilityChange "visible" (Some (MkVideo 0 0 0));
    Settles 0 ok;   (* 300 ms: restartScannerIfNeeded runs *)
    Settles 0 ok;   (* stop() of the old decoder *)
    Settles 0 ok;   (* clear() of the old decoder *)
    Settles 0 ok;   (* 500 ms: startScanner runs *)
    Settles 0 ok ]. (* 100 ms: start() of the new decoder is called *)

(** While that [start] is pending the operator presses stop; the
    decoder, not yet running, refuses; then the [start] resolves. *)
Definition stop_refused_then_started : list Event :=
  [ ClickStop;
    Settles 1 (Rejected not_running);   (* stop() *)
    Settles 0 ok ].                     (* start() *)

(** The same with a decoder that lets [stop] and [clear] through. *)
Definition stop_done_then_started : list Event :=
  [ ClickStop;
    Settles 1 ok;   (* stop() *)
    Settles 1 ok;   (* clear() *)
    Settles 0 ok ]. (* start() *)

(** The function suspended on [k], resumed with a resolved promise in
    any state, marks the session as scanning, touches nothing else,
    and returns. *)
Definition applied_in_any_state (k : Outcome -> Async unit) : Prop :=
  forall (s : State) (v : Value),
    run (k (Resolved v)) s
    = (set_wasScanningRef true
         (setIsInitializing false (setIsScanning true s)),
       Finished tt).

Definition resolved (o : Outcome) : bool :=
  match o with
  | Resolved _ => true
  | Rejected _ => false
  end.

(** The selectors of [startScanner], in the order of its [start]
    calls. *)
Definition camera_selectors : list Selector :=
  [FacingMode "environment"; CameraId "environment"; FacingMode "user"].

(** The spec's policy for a priority list of selectors: each is tried
    in order, stopping at the first that starts. *)
Fixpoint spec_attempts (sels : list Selector) (os : list Outcome)
  : list Selector :=
  match sels, os with
  | sel :: sels', o :: os' =>
      if resolved o then [sel] else sel :: spec_attempts sels' os'
  | _, _ => []
  end.

(** The selectors of the [start] calls among [cs], in order. *)
Definition starts (cs : list Call) : list Selector :=
  omap (fun c => match c with
                 | DecoderStart _ sel => Some sel
                 | _ => None
                 end) cs.

(** Code [A] at 0 ms, 500 ms and 2500 ms, then code [B] at 2600 ms. *)
Definition four_scans : list Event :=
  [ Decoded "A" "raw" 0; Decoded "A" "raw" 500;
    Decoded "A" "raw" 2500; Decoded "B" "raw" 2600 ].

(** The outcomes of a sequence of scans, in order, and the state left. *)
Fixpoint scan_all (evs : list (string * Z)) (s : State)
  : list ScanOutcome * State :=
  match evs with
  | [] => ([], s)
  | (code, now) :: evs' =>
      let '(o, s1) := handleScanSuccess code "raw" now s in
      let '(os, s2) := scan_all evs' s1 in
      (o :: os, s2)
  end.

(** ** Sequences of scans *)

(** The decoder reports [evs] one after the other, each with its code,
    its result and the clock reading: the codes that were accepted, in
    order. *)
Fixpoint accepted_codes (evs : list (string * DecodedResult * Z)) (s : State)
  : list string :=
  match evs with
  | [] => []
  | (decodedText, decodedResult, now) :: evs' =>
      let r := handleScanSuccess decodedText decodedResult now s in
      match fst r with
      | Accepted => decodedText :: accepted_codes evs' (snd r)
      | _ => accepted_codes evs' (snd r)
      end
  end.

(** The state those scans leave. *)
Fixpoint after_scans (evs : list (string * DecodedResult * Z)) (s : State)
  : State :=
  match evs with
  | [] => s
  | (decodedText, decodedResult, now) :: evs' =>
      after_scans evs'
        (snd (handleScanSuccess decodedText decodedResult now s))
  end.

(** ** The rest of the component *)

(** [getQrBoxSize()] for [window.innerWidth] and [window.innerHeight].
    Sizes are doubles, each of which is a rational; [times_0_8 m] is
    the double that [m * 0.8] evaluates to. *)
Definition getQrBoxSize (times_0_8 : Z -> QArith_base.Q)
    (innerWidth innerHeight : Z) : QArith_base.Q * QArith_base.Q :=
  let minDimension := Z.min innerWidth innerHeight in
  let size := Qminmax.Qmin
                (Qminmax.Qmax (times_0_8 minDimension)
                   (QArith_base.inject_Z 200))
                (QArith_base.inject_Z 300) in
  (size, size).

(** The code shown for an item of the history list:
    [scan.text.substring(0, 30)] followed by ["..."].  A JavaScript
    string is its sequence of UTF-16 code units, which is what
    [substring] counts: [text] is that sequence for [scan.text], and 46
    is the unit of ['.']. *)
Definition history_code (text : list N) : list N :=
  (take 30 text ++ [46; 46; 46])%list%N.

(** No [':'] occurs in [s]. *)
Fixpoint colon_free (s : string) : bool :=
  match s with
  | EmptyString => true
  | String c r => negb (Ascii.eqb c ":"%char) && colon_free r
  end.

(** ** What holds between events *)

(** An invocation [r] has ended in an exception nobody caught. *)
Definition uncaught {A : Type} (r : State * Susp A * list Call) : bool :=
  match snd (fst r) with
  | Threw _ => true
  | _ => false
  end.

(** [m] catches every exception it can meet. *)
Fixpoint never_throws {A : Type} (m : Async A) : Prop :=
  match m with
  | Ret _ => True
  | Throw _ => False
  | Read k => forall s, never_throws (k s)
  | Assign _ k => never_throws k
  | Await _ k => forall o, never_throws (k o)
  end.

(** Started in [s], [m] is in a state of [I] whenever it waits and when
    it ends, provided the state it is resumed in is one of [I]. *)
Fixpoint safe (I : State -> Prop) {A : Type} (m : Async A) (s : State)
  : Prop :=
  match m with
  | Ret _ | Throw _ => I s
  | Read k => safe I (k s) s
  | Assign f k => safe I k (f s)
  | Await c k => I s /\ forall o s', I s' -> safe I (k o) (effect c o s')
  end.

Definition pool_safe (I : State -> Prop) (y : Sys) : Prop :=
  Forall (fun p => forall o s', I s' ->
            safe I (p_k p o) (effect (p_call p) o s'))
         (pool y).

(** The entries of the history: none marked duplicate, all of seen
    codes, no code twice. *)
Definition history_ok (s : State) : Prop :=
  Forall (fun e => he_isDuplicate e = false
                   /\ he_text e ∈ scannedCodesRef (refs s))
         (scanHistory (ui s))
  /\ NoDup (he_text <$> scanHistory (ui s)).

(** The displayed result and its status go together. *)
Definition display_ok (s : State) : Prop :=
  match scannedData (ui s), scanStatus (ui s) with
  | None, None => True
  | Some d, Some st =>
      st = (if sd_isDuplicate d then StatusDuplicate else StatusSuccess)
      /\ ls_code (lastScanRef (refs s)) = Some (sd_text d)
      /\ sd_text d ∈ scannedCodesRef (refs s)
      /\ timers (outside s) <> []
  | _, _ => False
  end.

(** An error is not shown while the spinner is. *)
Definition spinner_ok (s : State) : Prop :=
  is_Some (error (ui s)) -> isInitializing (ui s) = false.

(** [isSecureContext] is the test of [checkSecureContext]. *)
Definition secure_ok (s : State) : Prop :=
  isSecureContext (ui s)
  = bool_decide (protocol (world s) = "https:")
    || (bool_decide (hostname (world s) = "localhost")
        || bool_decide (hostname (world s) = "127.0.0.1")).

(** * Properties *)

(** ** The scan handler *)

Lemma debounced_true lastScan decodedText now :
  debounced lastScan decodedText now = true <->
  ls_code lastScan = Some decodedText
  /\ now - ls_timestamp lastScan < 2000.
Proof.
  unfold debounced, DEBOUNCE_TIME.
  rewrite andb_true_iff, bool_decide_eq_true, Z.ltb_lt. tauto.
Qed.

(** C1: every scan event is classified by the ledger precedence.  If
    its code is the last sighting's and less than 2000 ms have elapsed,
    the outcome is [Suppressed] and the state is left as it was.
    Otherwise the last sighting becomes the event's code and time, and
    the outcome is [Duplicate] when the code is in the seen set (which
    is kept), else [Accepted] with the code inserted into the set;
    [scanStatus] shows which of the two it was. *)
Theorem C1_classification_precedence
    (decodedText : string) (decodedResult : DecodedResult) (now : Z)
    (s : State) :
  let lastSighting := lastScanRef (refs s) in
  let seenCodes := scannedCodesRef (refs s) in
  let outcome := fst (handleScanSuccess decodedText decodedResult now s) in
  let s' := snd (handleScanSuccess decodedText decodedResult now s) in
  (ls_code lastSighting = Some decodedText
   /\ now - ls_timestamp lastSighting < 2000 ->
   outcome = Suppressed /\ s' = s)
  /\ (~ (ls_code lastSighting = Some decodedText
         /\ now - ls_timestamp lastSighting < 2000) ->
      lastScanRef (refs s') = MkLastScan (Some decodedText) now
      /\ (decodedText ∈ seenCodes ->
          outcome = Duplicate
          /\ scannedCodesRef (refs s') = seenCodes
          /\ scanStatus (ui s') = Some StatusDuplicate)
      /\ (decodedText ∉ seenCodes ->
          outcome = Accepted
          /\ scannedCodesRef (refs s') = {[ decodedText ]} ∪ seenCodes
          /\ scanStatus (ui s') = Some StatusSuccess)).
Proof.
  cbv zeta. unfold handleScanSuccess.
  destruct (debounced (lastScanRef (refs s)) decodedText now) eqn:Hd.
  - apply debounced_true in Hd. split; [done | tauto].
  - split.
    + intros Hc. apply debounced_true in Hc. congruence.
    + intros _.
      destruct s as [[isS sd ss sh er ii ps sp sc] [r l c w] o wd]. cbn.
      case_bool_decide as Hin; cbn; repeat split; done.
Qed.

(** The theorem at the readings of [A] 500 ms and 2500 ms after the
    first one, and at the first one. *)
Lemma C1_witness :
  let s := snd (handleScanSuccess "A" "raw" 0 (initial localhost)) in
  fst (handleScanSuccess "A" "raw" 500 s) = Suppressed
  /\ fst (handleScanSuccess "A" "raw" 2500 s) = Duplicate
  /\ fst (handleScanSuccess "A" "raw" 0 (initial localhost)) = Accepted.
Proof.
  cbv zeta. split; [| split].
  - apply (C1_classification_precedence "A" "raw" 500
             (snd (handleScanSuccess "A" "raw" 0 (initial localhost)))).
    split; [reflexivity | vm_compute; reflexivity].
  - apply (C1_classification_precedence "A" "raw" 2500
             (snd (handleScanSuccess "A" "raw" 0 (initial localhost)))).
    + intros [_ H]. vm_compute in H. discriminate H.
    + vm_compute. reflexivity.
  - apply (C1_classification_precedence "A" "raw" 0 (initial localhost)).
    + intros [H _]. discriminate H.
    + apply not_elem_of_empty.
Defined.

(** C10: a debounced event has no effect at all.  When the code is the
    last sighting's and less than 2000 ms have elapsed, the handler
    returns the state it was given: last sighting, seen set, history,
    displayed result, pending timers and requested feedback are all
    unchanged. *)
Theorem C10_debounced_event_has_no_effect
    (decodedText : string) (decodedResult : DecodedResult) (now : Z)
    (s : State) :
  ls_code (lastScanRef (refs s)) = Some decodedText ->
  now - ls_timestamp (lastScanRef (refs s)) < 2000 ->
  handleScanSuccess decodedText decodedResult now s = (Suppressed, s).
Proof.
  intros Hc Ht. unfold handleScanSuccess.
  assert (debounced (lastScanRef (refs s)) decodedText now = true) as ->
    by (apply debounced_true; done).
  reflexivity.
Qed.

(** The second reading of [A], 500 ms after the first. *)
Lemma C10_witness :
  handleScanSuccess "A" "raw" 500
    (snd (handleScanSuccess "A" "raw" 0 (initial localhost)))
  = (Suppressed, snd (handleScanSuccess "A" "raw" 0 (initial localhost))).
Proof.
  apply C10_debounced_event_has_no_effect;
    [reflexivity | vm_compute; reflexivity].
Defined.

(** What a scan does to the history: nothing, unless it is accepted. *)
Lemma handleScanSuccess_history decodedText decodedResult now s :
  let r := handleScanSuccess decodedText decodedResult now s in
  match fst r with
  | Accepted =>
      scanHistory (ui (snd r))
      = MkHistoryEntry decodedText now false :: take 9 (scanHistory (ui s))
  | _ => scanHistory (ui (snd r)) = scanHistory (ui s)
  end.
Proof.
  cbv zeta. unfold handleScanSuccess.
  destruct (debounced _ _ _); [done |].
  destruct s as [[a b c d e f g h i] [r l cs w] o wd]. cbn.
  case_bool_decide; reflexivity.
Qed.

(** What a scan does to the seen set: it can only grow. *)
Lemma handleScanSuccess_seen decodedText decodedResult now s :
  scannedCodesRef (refs s)
  ⊆ scannedCodesRef
      (refs (snd (handleScanSuccess decodedText decodedResult now s))).
Proof.
  unfold handleScanSuccess.
  destruct (debounced _ _ _); [done |].
  destruct s as [u [r l cs w] o wd]. cbn.
  case_bool_decide; cbn; set_solver.
Qed.

(** C2 (the code at the claim's scenario): on a running scanner, after
    [A] at 0, 500 and 2500 ms and [B] at 2600 ms, the outcomes are
    [Accepted], [Suppressed], [Duplicate], [Accepted], and the history
    holds two entries, [B] then [A]: the [Duplicate] of [A] was not
    inserted. *)
Theorem C2_scenario_history :
  (exists y, exec to_active (boot localhost) = Some y
     /\ isScanning (ui (app y)) = true
     /\ fst (scan_all [("A", 0); ("A", 500); ("A", 2500); ("B", 2600)]
               (app y))
        = [Accepted; Suppressed; Duplicate; Accepted])
  /\ (app <$> exec (to_active ++ four_scans) (boot localhost))
     ≫= (fun s => Some (scanHistory (ui s)))
     = Some [ MkHistoryEntry "B" 2600 false; MkHistoryEntry "A" 0 false ].
Proof.
  split; [eexists; split; [vm_compute; reflexivity |] |]; vm_compute; done.
Qed.

(** In the [Duplicate] branch the history is left as it was. *)
Lemma duplicate_not_in_history decodedText decodedResult now s :
  fst (handleScanSuccess decodedText decodedResult now s) = Duplicate ->
  scanHistory (ui (snd (handleScanSuccess decodedText decodedResult now s)))
  = scanHistory (ui s).
Proof.
  intros H. pose proof (handleScanSuccess_history
    decodedText decodedResult now s) as Hh.
  cbv zeta in Hh. by rewrite H in Hh.
Qed.

(** ** The camera handlers keep the ledger *)

Section Quiet.
Context {A B : Type}.

Lemma quiet_bind (m : Async A) (f : A -> Async B) :
  quiet m -> (forall a, quiet (f a)) -> quiet (m ≫= f).
Proof.
  intros Hm Hf. unfold mbind, Async_bind.
  induction m as [a | e | k IH | g k IH | c k IH]; cbn in *; auto.
  destruct Hm as [Hg Hk]. auto.
Qed.

Lemma quiet_try_catch (m : Async A) (h : Exn -> Async A) :
  quiet m -> (forall e, quiet (h e)) -> quiet (try_catch m h).
Proof.
  intros Hm Hh.
  induction m as [a | e | k IH | g k IH | c k IH]; cbn in *; auto.
  destruct Hm as [Hg Hk]. auto.
Qed.

Lemma run_quiet (m : Async A) (s : State) :
  quiet m ->
  ledger (fst (run m s)) = ledger s
  /\ match snd (run m s) with
     | Blocked _ k => forall o, quiet (k o)
     | _ => True
     end.
Proof.
  revert s.
  induction m as [a | e | k IH | g k IH | c k IH]; intros s Hm; cbn in *;
    auto.
  destruct Hm as [Hg Hk]. destruct (IH (g s) Hk) as [H1 H2].
  split; [congruence | done].
Qed.

End Quiet.

Lemma quiet_assign (f : State -> State) :
  (forall s, ledger (f s) = ledger s) -> quiet (assign f).
Proof. intros H. cbn. auto. Qed.

Lemma quiet_read {A : Type} (f : State -> A) : quiet (read f).
Proof. cbn. auto. Qed.

Lemma quiet_await (c : Call) : quiet (await c).
Proof. cbn. intros [v | e]; cbn; auto. Qed.

Lemma quiet_await_value (c : Call) : quiet (await_value c).
Proof. cbn. intros [v | e]; cbn; auto. Qed.

Lemma quiet_throw_if (c : bool) (e : Exn) : quiet (throw_if c e).
Proof. destruct c; cbn; auto. Qed.

Lemma quiet_setTimeout (t : Async unit) (ms : Z) :
  quiet t -> quiet (setTimeout t ms).
Proof. cbn. auto. Qed.

Lemma quiet_ret {A : Type} (a : A) : quiet (mret a : Async A).
Proof. exact I. Qed.

Lemma quiet_throw {A : Type} (e : Exn) : quiet (Throw e : Async A).
Proof. exact I. Qed.

(** The setters of the camera handlers keep the ledger. *)
Ltac keeps := intros [[? ? ? ? ? ? ? ? ?] [? ? ? ?] [? ? ? ?] ?]; reflexivity.

Lemma keeps_setIsScanning v s : ledger (setIsScanning v s) = ledger s.
Proof. revert s. keeps. Qed.
Lemma keeps_setError v s : ledger (setError v s) = ledger s.
Proof. revert s. keeps. Qed.
Lemma keeps_setIsInitializing v s : ledger (setIsInitializing v s) = ledger s.
Proof. revert s. keeps. Qed.
Lemma keeps_setPermissionStatus v s :
  ledger (setPermissionStatus v s) = ledger s.
Proof. revert s. keeps. Qed.
Lemma keeps_setShowPermissionPrompt v s :
  ledger (setShowPermissionPrompt v s) = ledger s.
Proof. revert s. keeps. Qed.
Lemma keeps_setIsSecureContext v s :
  ledger (setIsSecureContext v s) = ledger s.
Proof. revert s. keeps. Qed.
Lemma keeps_set_html5QrCodeRef v s :
  ledger (set_html5QrCodeRef v s) = ledger s.
Proof. revert s. keeps. Qed.
Lemma keeps_set_wasScanningRef v s :
  ledger (set_wasScanningRef v s) = ledger s.
Proof. revert s. keeps. Qed.
Lemma keeps_set_instances v s : ledger (set_instances v s) = ledger s.
Proof. revert s. keeps. Qed.
Lemma keeps_set_streams v s : ledger (set_streams v s) = ledger s.
Proof. revert s. keeps. Qed.

Create HintDb quiet.
#[local] Hint Resolve quiet_assign quiet_read quiet_await quiet_await_value
  quiet_throw_if quiet_setTimeout quiet_ret quiet_throw
  keeps_setIsScanning keeps_setError keeps_setIsInitializing
  keeps_setPermissionStatus keeps_setShowPermissionPrompt
  keeps_setIsSecureContext keeps_set_html5QrCodeRef keeps_set_wasScanningRef
  keeps_set_instances keeps_set_streams : quiet.

(** Walk down a handler: sequencing, [try]/[catch], and the tests. *)
Ltac quiet_walk :=
  repeat first
    [ progress intros
    | solve [auto with quiet]
    | apply quiet_bind
    | apply quiet_try_catch
    | match goal with
      | |- quiet (if ?b then _ else _) => destruct b
      | |- quiet (match ?x with _ => _ end) => destruct x
      end ].

Lemma quiet_checkSecureContext : quiet checkSecureContext.
Proof. unfold checkSecureContext. quiet_walk. Qed.

Lemma quiet_await_ref (m : nat -> Call) : quiet (await_ref m).
Proof. unfold await_ref. quiet_walk. Qed.

#[local] Hint Resolve quiet_checkSecureContext quiet_await_ref : quiet.

Lemma quiet_startScanner : quiet startScanner.
Proof.
  unfold startScanner, new_Html5Qrcode, decoder_isScanning. quiet_walk.
Qed.

#[local] Hint Resolve quiet_startScanner : quiet.

Lemma quiet_stopScanning : quiet stopScanning.
Proof. unfold stopScanning. quiet_walk. Qed.

Lemma quiet_requestCameraPermission : quiet requestCameraPermission.
Proof. unfold requestCameraPermission. quiet_walk. Qed.

Lemma quiet_restartScannerIfNeeded scanning permission video :
  quiet (restartScannerIfNeeded scanning permission video).
Proof. unfold restartScannerIfNeeded. quiet_walk. Qed.

Lemma quiet_restart_later video : quiet (restart_later video).
Proof.
  unfold restart_later. apply quiet_bind; [apply quiet_read |].
  intros s. apply quiet_setTimeout, quiet_restartScannerIfNeeded.
Qed.

Lemma quiet_autoStartIfPermissionGranted : quiet autoStartIfPermissionGranted.
Proof. unfold autoStartIfPermissionGranted. quiet_walk. Qed.

#[local] Hint Resolve quiet_stopScanning quiet_requestCameraPermission
  quiet_restartScannerIfNeeded quiet_autoStartIfPermissionGranted : quiet.

Lemma quiet_on_permission_state st : quiet (on_permission_state st).
Proof. unfold on_permission_state. quiet_walk. Qed.

#[local] Hint Resolve quiet_on_permission_state : quiet.

Lemma quiet_mount : quiet mount.
Proof. unfold mount, checkPermission. quiet_walk. Qed.

Lemma quiet_permission_onchange st : quiet (permission_onchange st).
Proof. unfold permission_onchange. quiet_walk. Qed.

Lemma quiet_handleVisibilityChange visibilityState video :
  quiet (handleVisibilityChange visibilityState video).
Proof. unfold handleVisibilityChange. quiet_walk. Qed.

Lemma quiet_handleFocus video : quiet (handleFocus video).
Proof. unfold handleFocus. quiet_walk. Qed.

Lemma quiet_handlePageShow persisted video :
  quiet (handlePageShow persisted video).
Proof. unfold handlePageShow. quiet_walk. Qed.

#[local] Hint Resolve quiet_mount quiet_permission_onchange
  quiet_handleVisibilityChange quiet_handleFocus quiet_handlePageShow
  : quiet.

(** ** Steps of the event loop *)

Lemma effect_ledger c o s : ledger (effect c o s) = ledger s.
Proof.
  destruct c, o as [v | e]; cbn; auto using keeps_set_streams.
Qed.

Lemma invoke_quiet (t : Async unit) (y : Sys) :
  quiet t -> pool_quiet y ->
  ledger (app (invoke t y)) = ledger (app y) /\ pool_quiet (invoke t y).
Proof.
  intros Ht Hy. unfold invoke, settle.
  destruct (run_quiet t (app y) Ht) as [Hl Hk].
  destruct (run t (app y)) as [s' [a | e | c k]]; cbn in *;
    split; try done.
  unfold pool_quiet. cbn. apply Forall_app. split; [done |].
  by apply Forall_singleton.
Qed.

Lemma resolve_quiet (i : nat) (o : Outcome) (y : Sys) :
  pool_quiet y ->
  ledger (app (resolve i o y)) = ledger (app y) /\ pool_quiet (resolve i o y).
Proof.
  intros Hy. unfold resolve.
  destruct (pool y !! i) as [p |] eqn:Hp; [| done].
  assert (forall o, quiet (p_k p o)) as Hq.
  { unfold pool_quiet in Hy. rewrite Forall_lookup in Hy. eauto. }
  assert (Forall (fun p => forall o, quiet (p_k p o)) (delete i (pool y)))
    as Hd.
  { by apply Forall_delete. }
  destruct (run_quiet (p_k p o) (effect (p_call p) o (app y)) (Hq o))
    as [Hl Hk].
  rewrite effect_ledger in Hl. unfold settle.
  destruct (run (p_k p o) _) as [s' [a | e | c k]]; cbn in *;
    split; try done.
  unfold pool_quiet. cbn. apply Forall_app. split; [done |].
  by apply Forall_singleton.
Qed.

Lemma fire_timer_history i s :
  scanHistory (ui (fire_timer i s)) = scanHistory (ui s)
  /\ scannedCodesRef (refs (fire_timer i s)) = scannedCodesRef (refs s).
Proof.
  unfold fire_timer. destruct (timers (outside s) !! i); [| done].
  by destruct s as [[? ? ? ? ? ? ? ? ?] [? ? ? ?] [? ? ? ?] ?].
Qed.

Lemma ledger_history s s' :
  ledger s' = ledger s ->
  scanHistory (ui s') = scanHistory (ui s)
  /\ scannedCodesRef (refs s') = scannedCodesRef (refs s).
Proof. unfold ledger. intros H. by simplify_eq. Qed.

(** A step keeps the pool quiet; it keeps history and seen set too,
    unless it is a scan. *)
Lemma step_quiet (e : Event) (y : Sys) :
  pool_quiet y ->
  pool_quiet (step e y)
  /\ ((history (step e y) = history y /\ seenCodes (step e y) = seenCodes y)
      \/ exists decodedText decodedResult now,
           e = Decoded decodedText decodedResult now).
Proof.
  intros Hy. unfold history, seenCodes.
  destruct e; cbn [step];
    try (match goal with
         | |- context [invoke ?t y] =>
             destruct (invoke_quiet t y) as [Hl Hp]; [auto with quiet | done |];
             split; [done | left; by apply ledger_history]
         end).
  - split; [done | right; eauto].
  - split; [done | left; apply fire_timer_history].
  - destruct (resolve_quiet i o y Hy) as [Hl Hp].
    split; [done | left; by apply ledger_history].
Qed.

Lemma boot_quiet w : pool_quiet (boot w).
Proof.
  unfold boot. apply invoke_quiet; [auto with quiet |].
  unfold pool_quiet. cbn. constructor.
Qed.

Lemma reachable_quiet y : reachable y -> pool_quiet y.
Proof.
  induction 1 as [w | e y Hr IH He]; [apply boot_quiet |].
  by apply step_quiet.
Qed.

Lemma exec_reachable es y y' :
  reachable y -> exec es y = Some y' -> reachable y'.
Proof.
  revert y. induction es as [| e es IH]; intros y Hy; cbn.
  - by intros [= <-].
  - destruct (enabled e y) eqn:He; [| done].
    apply IH. by constructor.
Qed.

(** A step changes the history only by an accepted scan, which puts
    its entry in front of the nine most recent ones. *)
Lemma step_history (e : Event) (y : Sys) :
  pool_quiet y ->
  history (step e y) = history y
  \/ exists decodedText decodedResult now,
       e = Decoded decodedText decodedResult now
       /\ fst (handleScanSuccess decodedText decodedResult now (app y))
          = Accepted
       /\ history (step e y)
          = MkHistoryEntry decodedText now false :: take 9 (history y).
Proof.
  intros Hy. destruct (step_quiet e y Hy) as [_ [[H _] | (t & r & n & ->)]];
    [by left |].
  pose proof (handleScanSuccess_history t r n (app y)) as Hh.
  cbv zeta in Hh. unfold history. cbn [step app].
  destruct (fst (handleScanSuccess t r n (app y))) eqn:Ho; eauto 10.
Qed.

(** No step removes a code from the seen set. *)
Lemma step_seen (e : Event) (y : Sys) :
  pool_quiet y -> seenCodes y ⊆ seenCodes (step e y).
Proof.
  intros Hy. destruct (step_quiet e y Hy) as [_ [[_ H] | (t & r & n & ->)]].
  - by rewrite H.
  - apply handleScanSuccess_seen.
Qed.

Lemma reachable_history_length y :
  reachable y -> (length (history y) <= 10)%nat.
Proof.
  induction 1 as [w | e y Hr IH He].
  - destruct (invoke_quiet mount (MkSys (initial w) [])) as [Hl _];
      [auto with quiet | constructor |].
    apply ledger_history in Hl as [Hh _]. unfold history, boot.
    rewrite Hh. cbn. lia.
  - destruct (step_history e y (reachable_quiet y Hr))
      as [-> | (t & r & n & _ & _ & ->)]; [done |].
    cbn. rewrite length_take. lia.
Qed.

(** No entry of a reachable history is marked as a duplicate, so the
    history list never renders its [Duplicate] badge. *)
Lemma reachable_history_not_duplicate y :
  reachable y -> Forall (fun e => he_isDuplicate e = false) (history y).
Proof.
  induction 1 as [w | e y Hr IH He].
  - destruct (invoke_quiet mount (MkSys (initial w) [])) as [Hl _];
      [auto with quiet | constructor |].
    apply ledger_history in Hl as [Hh _]. unfold history, boot.
    rewrite Hh. constructor.
  - destruct (step_history e y (reachable_quiet y Hr))
      as [-> | (t & r & n & _ & _ & ->)]; [done |].
    constructor; [done | by apply Forall_take].
Qed.

(** C5: in every reachable state the history holds at most 10 entries;
    a step either leaves it as it was or is an accepted scan, whose
    entry is put in front of the nine most recent ones; and a
    suppressed scan leaves it as it was, so no suppressed outcome is
    ever an entry. *)
Theorem C5_history_bounded_newest_first (y : Sys) :
  reachable y ->
  (length (history y) <= 10)%nat
  /\ (forall e : Event,
        history (step e y) = history y
        \/ exists decodedText decodedResult now,
             e = Decoded decodedText decodedResult now
             /\ fst (handleScanSuccess decodedText decodedResult now (app y))
                = Accepted
             /\ history (step e y)
                = MkHistoryEntry decodedText now false
                  :: take 9 (history y))
  /\ (forall decodedText decodedResult now,
        fst (handleScanSuccess decodedText decodedResult now (app y))
        = Suppressed ->
        history (step (Decoded decodedText decodedResult now) y)
        = history y).
Proof.
  intros Hr. split; [by apply reachable_history_length |]. split.
  - intros e. apply step_history. by apply reachable_quiet.
  - intros t r n Ho.
    pose proof (handleScanSuccess_history t r n (app y)) as Hh.
    cbv zeta in Hh. rewrite Ho in Hh. exact Hh.
Qed.

(** The theorem after the four scans of the scenario. *)
Lemma C5_witness :
  exists y, exec (to_active ++ four_scans) (boot localhost) = Some y
    /\ (length (history y) <= 10)%nat.
Proof.
  eexists. split; [vm_compute; reflexivity |].
  apply C5_history_bounded_newest_first.
  eapply (exec_reachable (to_active ++ four_scans) (boot localhost));
    [apply reach_boot | vm_compute; reflexivity].
Defined.

(** ** No reset *)

(** One invocation run alone keeps the ledger. *)
Lemma drive_ledger {A : Type} (os : list Outcome) (r : State * Susp A) :
  match snd r with
  | Blocked _ k => forall o, quiet (k o)
  | _ => True
  end ->
  ledger (fst (fst (drive os r))) = ledger (fst r).
Proof.
  revert r. induction os as [| o os IH]; intros [s [a | e | c k]] Hk;
    cbn in *; try done.
  destruct (run_quiet (k o) (effect c o s) (Hk o)) as [Hl Hq].
  specialize (IH (run (k o) (effect c o s)) Hq).
  destruct (drive os (run (k o) (effect c o s))) as [r' cs]. cbn in *.
  rewrite IH, Hl. apply effect_ledger.
Qed.

Lemma call_ledger {A : Type} (m : Async A) (os : list Outcome) (s : State) :
  quiet m -> ledger (fst (fst (call m os s))) = ledger s.
Proof.
  intros Hm. unfold call.
  destruct (run_quiet m s Hm) as [Hl Hk].
  rewrite drive_ledger; done.
Qed.

(** A code of the seen set is never accepted. *)
Lemma seen_not_accepted decodedText decodedResult now s :
  decodedText ∈ scannedCodesRef (refs s) ->
  fst (handleScanSuccess decodedText decodedResult now s) <> Accepted.
Proof.
  intros Hin. unfold handleScanSuccess.
  destruct (debounced _ _ _); [done |].
  destruct s as [u [r l cs w] o wd]. cbn in *.
  by rewrite bool_decide_eq_true_2.
Qed.

(** C3 (as stated, refuted): on a running scanner that has accepted
    [A], no event empties the seen set or the history; and after
    stop and restart, both still hold [A], which then classifies as
    [Duplicate], not [Accepted]. *)
Lemma C3_no_reset_counterexample :
  exists y y',
    exec (to_active ++ [Decoded "A" "raw" 0]) (boot localhost) = Some y
    /\ seenCodes y = {[ "A" ]}
    /\ (~ exists e : Event,
            seenCodes (step e y) = ∅ \/ history (step e y) = [])
    /\ exec stop_and_restart y = Some y'
    /\ isScanning (ui (app y')) = true
    /\ seenCodes y' = {[ "A" ]}
    /\ history y' = [MkHistoryEntry "A" 0 false]
    /\ fst (handleScanSuccess "A" "raw" 60000 (app y')) = Duplicate.
Proof.
  eexists. eexists. split; [vm_compute; reflexivity |].
  split; [vm_compute; reflexivity |].
  split; [| split; [vm_compute; reflexivity | by vm_compute]].
  match goal with |- ~ (exists e, seenCodes (step e ?y0) = _ \/ _) =>
    set (y := y0) end.
  assert (reachable y) as Hr.
  { eapply (exec_reachable (to_active ++ [Decoded "A" "raw" 0])
              (boot localhost));
      [apply reach_boot | vm_compute; reflexivity]. }
  apply reachable_quiet in Hr. intros [e [He | He]].
  - pose proof (step_seen e y Hr) as Hs. rewrite He in Hs.
    apply (not_elem_of_empty (C := gset string) "A"), Hs.
    replace (seenCodes y) with ({[ "A" ]} : gset string)
      by (vm_compute; reflexivity).
    by apply elem_of_singleton.
  - destruct (step_history e y Hr) as [H | (t & r & n & _ & _ & H)];
      rewrite He in H; discriminate H.
Qed.

(** C3 (amended): there is no reset.  From a reachable state no event
    removes a code from the seen set or empties a history that has an
    entry; [stopScanning], however the decoder answers, leaves both as
    they were; and a code of the seen set is never [Accepted] again. *)
Theorem C3_seen_codes_never_cleared (y : Sys) :
  reachable y ->
  (forall e : Event,
     seenCodes y ⊆ seenCodes (step e y)
     /\ (history y <> [] -> history (step e y) <> []))
  /\ (forall os : list Outcome,
        let s' := fst (fst (call stopScanning os (app y))) in
        scannedCodesRef (refs s') = seenCodes y
        /\ scanHistory (ui s') = history y)
  /\ (forall decodedText decodedResult now,
        decodedText ∈ seenCodes y ->
        fst (handleScanSuccess decodedText decodedResult now (app y))
        <> Accepted).
Proof.
  intros Hr. pose proof (reachable_quiet y Hr) as Hq. repeat split.
  - by apply step_seen.
  - intros Hne. destruct (step_history e y Hq)
      as [-> | (t & r & n & _ & _ & ->)]; done.
  - apply ledger_history, call_ledger, quiet_stopScanning.
  - apply ledger_history, call_ledger, quiet_stopScanning.
  - intros t r n. apply seen_not_accepted.
Qed.

(** Pressing stop on a running scanner that has accepted [A]. *)
Lemma C3_witness :
  exists y, exec (to_active ++ [Decoded "A" "raw" 0]) (boot localhost) = Some y
    /\ seenCodes y ⊆ seenCodes (step ClickStop y).
Proof.
  eexists. split; [vm_compute; reflexivity |].
  apply C3_seen_codes_never_cleared.
  eapply (exec_reachable (to_active ++ [Decoded "A" "raw" 0])
            (boot localhost));
    [apply reach_boot | vm_compute; reflexivity].
Defined.

(** ** The auto-clear timers *)

(** C6 (the code at the failing input): [A] is accepted at 0 ms and
    [B] at 1500 ms.  The timer of [A] has not been cancelled: both
    timers are pending while [B] is displayed, and the timer of [A],
    due at 2000 ms, clears the display 500 ms after [B] was shown,
    where the source's comments on both timers promise the message for
    2 seconds. *)
Lemma C6_old_timer_clears_new_result :
  exists y,
    exec (to_active ++ [Decoded "A" "raw" 0; Decoded "B" "raw" 1500])
         (boot localhost) = Some y
    /\ timers (outside (app y)) = [MkTimer 2000; MkTimer 3500]
    /\ scannedData (ui (app y)) = Some (MkScannedData "B" 1500 "raw" false)
    /\ enabled (TimerFires 0) y = true
    /\ scannedData (ui (app (step (TimerFires 0) y))) = None
    /\ scanStatus (ui (app (step (TimerFires 0) y))) = None
    /\ timers (outside (app (step (TimerFires 0) y))) = [MkTimer 3500].
Proof.
  eexists. split; [vm_compute; reflexivity |]. by vm_compute.
Qed.

(** Where the early clear comes from, in any state: a scan that is not
    suppressed replaces the displayed result and adds a timer due
    2000 ms later behind the pending ones, none of which is removed;
    and whichever pending timer fires clears the result displayed
    then. *)
Lemma timers_accumulate
    (decodedText : string) (decodedResult : DecodedResult) (now : Z)
    (s : State) :
  fst (handleScanSuccess decodedText decodedResult now s) <> Suppressed ->
  let s' := snd (handleScanSuccess decodedText decodedResult now s) in
  (exists d, scannedData (ui s')
             = Some (MkScannedData decodedText now decodedResult d))
  /\ timers (outside s')
     = (timers (outside s) ++ [MkTimer (now + 2000)])%list
  /\ (forall i : nat,
        (i < length (timers (outside s')))%nat ->
        scannedData (ui (fire_timer i s')) = None
        /\ scanStatus (ui (fire_timer i s')) = None
        /\ timers (outside (fire_timer i s'))
           = delete i (timers (outside s'))).
Proof.
  intros Ho. cbv zeta.
  assert (forall i s0, (i < length (timers (outside s0)))%nat ->
    scannedData (ui (fire_timer i s0)) = None
    /\ scanStatus (ui (fire_timer i s0)) = None
    /\ timers (outside (fire_timer i s0)) = delete i (timers (outside s0)))
    as Hfire.
  { intros i s0 Hi. unfold fire_timer.
    destruct (lookup_lt_is_Some_2 _ _ Hi) as [t ->].
    by destruct s0 as [[? ? ? ? ? ? ? ? ?] [? ? ? ?] [? ? ? ?] ?]. }
  split; [| split; [| intros i Hi; by apply Hfire]];
    revert Ho; unfold handleScanSuccess;
    (destruct (debounced _ _ _); [done |]); intros _;
    destruct s as [[? ? ? ? ? ? ? ? ?] [? ? ? ?] [? ? ? ?] ?]; cbn;
    case_bool_decide; cbn; eauto.
Qed.

(** [B] accepted at 1500 ms while the timer of [A] is pending. *)
Lemma timers_accumulate_example :
  timers (outside (snd (handleScanSuccess "B" "raw" 1500
     (snd (handleScanSuccess "A" "raw" 0 (initial localhost))))))
  = ([MkTimer 2000] ++ [MkTimer (1500 + 2000)])%list.
Proof.
  apply (timers_accumulate "B" "raw" 1500
           (snd (handleScanSuccess "A" "raw" 0 (initial localhost)))).
  vm_compute. discriminate.
Defined.

(** ** Starting the decoder *)

Lemma drive_Finished {A : Type} (os : list Outcome) (s : State) (a : A) :
  drive os (s, Finished a) = (s, Finished a, []).
Proof. by destruct os. Qed.

(** C8: [startScanner] calls [start] with the environment-facing
    object, then the string, then the user-facing object, stopping at
    the first call that resolves: the selectors tried are those of the
    spec's policy on the three outcomes.  When one resolves the
    scanner is running on the new instance; when none does, it is not
    and an error is shown. *)
Theorem C8_camera_selector_order
    (s : State) (o1 o2 o3 : Outcome) (rest : list Outcome) :
  readerElement (world s) = true ->
  let h := instances (outside s) in
  let r := call startScanner (ok :: o1 :: o2 :: o3 :: rest) s in
  starts (snd r) = spec_attempts camera_selectors [o1; o2; o3]
  /\ (existsb resolved [o1; o2; o3] = true ->
      snd (fst r) = Finished tt
      /\ isScanning (ui (fst (fst r))) = true
      /\ html5QrCodeRef (refs (fst (fst r))) = Some h
      /\ h ∈ streams (outside (fst (fst r))))
  /\ (existsb resolved [o1; o2; o3] = false ->
      isScanning (ui (fst (fst r))) = false
      /\ is_Some (error (ui (fst (fst r))))).
Proof.
  intros Hr. cbv zeta. unfold call, startScanner. cbn. rewrite Hr. cbn.
  destruct s as [[isS sd ss sh er ii ps sp sc] [ref ls seen was]
                   [tm fb inst strm] w]. cbn in *.
  destruct o1 as [v1 | e1]; cbn.
  { repeat split; try done; by constructor. }
  destruct o2 as [v2 | e2]; cbn.
  { repeat split; try done; by constructor. }
  destruct o3 as [v3 | e3]; cbn.
  { rewrite drive_Finished. repeat split; try done; by constructor. }
  case_bool_decide; cbn.
  - destruct rest as [| [v4 | e4] [| [v5 | e5] rest]]; cbn;
      rewrite ?drive_Finished; repeat split; try done; eauto.
  - destruct rest as [| [v4 | e4] rest]; cbn;
      rewrite ?drive_Finished; repeat split; try done; eauto.
Qed.

(** The rear camera is refused, the string selector starts. *)
Lemma C8_witness :
  starts (snd (call startScanner [ok; Rejected not_running; ok; ok]
                 (initial localhost)))
  = [FacingMode "environment"; CameraId "environment"].
Proof.
  apply (C8_camera_selector_order (initial localhost)
           (Rejected not_running) ok ok []).
  reflexivity.
Defined.

(** C4 (as stated, refuted): a restart is waiting for [start] when the
    operator presses stop.  If the decoder refuses the [stop], the
    resolved [start] leaves the session scanning; if it lets the
    [stop] through, the resolved [start] leaves the session scanning
    with a running stream that no ref points to. *)
Lemma C4_stale_start_counterexample :
  (exists y,
     exec (to_active ++ to_restarting ++ stop_refused_then_started)
          (boot localhost) = Some y
     /\ isScanning (ui (app y)) = true
     /\ wasScanningRef (refs (app y)) = true
     /\ streams (outside (app y)) = [1%nat])
  /\ (exists y,
        exec (to_active ++ to_restarting ++ stop_done_then_started)
             (boot localhost) = Some y
        /\ isScanning (ui (app y)) = true
        /\ html5QrCodeRef (refs (app y)) = None
        /\ streams (outside (app y)) = [1%nat]).
Proof.
  split; eexists; (split; [vm_compute; reflexivity | by vm_compute]).
Qed.

(** C4 (amended): a [start] that resolves is applied whatever the
    state has become.  [startScanner] creates instance [h], waits
    100 ms, and calls [start] with the first selector, after a
    rejection with the second, after another with the third; when any
    of the three resolves, in any state, it sets [isScanning] and
    [wasScanningRef] to true and [isInitializing] to false, changes
    nothing else, and returns. *)
Theorem C4_start_resolution_unconditional (s : State) :
  readerElement (world s) = true ->
  let h := instances (outside s) in
  exists k1,
    run startScanner s
    = (set_html5QrCodeRef (Some h) (set_instances (S h) s),
       Blocked (Delay 100) k1)
    /\ forall s1, exists k2,
         run (k1 ok) s1
         = (s1, Blocked (DecoderStart h (FacingMode "environment")) k2)
         /\ applied_in_any_state k2
         /\ forall s2 e2, exists k3,
              run (k2 (Rejected e2)) s2
              = (s2, Blocked (DecoderStart h (CameraId "environment")) k3)
              /\ applied_in_any_state k3
              /\ forall s3 e3, exists k4,
                   run (k3 (Rejected e3)) s3
                   = (s3, Blocked (DecoderStart h (FacingMode "user")) k4)
                   /\ applied_in_any_state k4.
Proof.
  intros Hr h. unfold startScanner, applied_in_any_state. cbn.
  rewrite Hr. cbn.
  eexists. split; [reflexivity |].
  intros s1. cbn. eexists. split; [reflexivity |]. split; [done |].
  intros s2 e2. cbn. eexists. split; [reflexivity |]. split; [done |].
  intros s3 e3. cbn. eexists. split; [reflexivity |]. done.
Qed.

(** The first [startScanner] of a page on localhost. *)
Lemma C4_witness :
  exists k1,
    run startScanner (initial localhost)
    = (set_html5QrCodeRef (Some 0%nat)
         (set_instances 1 (initial localhost)),
       Blocked (Delay 100) k1)
    /\ forall s1, exists k2,
         run (k1 ok) s1
         = (s1, Blocked (DecoderStart 0 (FacingMode "environment")) k2)
         /\ applied_in_any_state k2.
Proof.
  destruct (C4_start_resolution_unconditional (initial localhost)
              eq_refl) as [k1 [H1 H2]].
  exists k1. split; [exact H1 |].
  intros s1. destruct (H2 s1) as [k2 [H3 [H4 _]]].
  exists k2. split; [exact H3 | exact H4].
Defined.

(** ** Stopping *)

Lemma filter_ne_idem (h : nat) (l : list nat) :
  filter (fun x => x ≠ h) (filter (fun x => x ≠ h) l)
  = filter (fun x => x ≠ h) l.
Proof.
  induction l as [| x l IH]; [done |].
  rewrite (filter_cons _ x l). case_decide as Hx; [| done].
  rewrite filter_cons. rewrite decide_True by done. by rewrite IH.
Qed.

(** C9 (as stated, refuted): a restart is waiting for [start] with
    [isScanning] still true when [stopScanning] is called and the
    decoder refuses the [stop].  After one call, and after two, the
    session is still scanning and the ref still holds the decoder. *)
Lemma C9_failed_stop_counterexample :
  exists s,
    app <$> exec (to_active ++ to_restarting) (boot localhost) = Some s
    /\ isScanning (ui s) = true
    /\ html5QrCodeRef (refs s) = Some 1%nat
    /\ let once := fst (fst (call stopScanning [Rejected not_running] s)) in
       let twice :=
         fst (fst (call stopScanning [Rejected not_running] once)) in
       isScanning (ui once) = true
       /\ html5QrCodeRef (refs once) = Some 1%nat
       /\ isScanning (ui twice) = true
       /\ html5QrCodeRef (refs twice) = Some 1%nat.
Proof.
  eexists. split; [vm_compute; reflexivity | by vm_compute].
Qed.

(** C9 (amended): [stopScanning] never throws: once its two promises
    have settled it has returned.  With no decoder in the ref it
    awaits nothing and only clears [isScanning] and [wasScanningRef],
    which changes nothing when both are clear already.  When the
    decoder's [stop] and [clear] resolve, the session is not scanning,
    the ref is empty and the stream ended, and a further call changes
    nothing.  Called again with the decoder answering alike, it leaves
    the state of the first call.  When [stop] is rejected, only
    [wasScanningRef] is cleared. *)
Theorem C9_stop_swallows_and_settles (s : State) :
  (forall os, (2 <= length os)%nat ->
     snd (fst (call stopScanning os s)) = Finished tt)
  /\ (html5QrCodeRef (refs s) = None ->
      forall os, call stopScanning os s
                 = (set_wasScanningRef false (setIsScanning false s),
                    Finished tt, []))
  /\ (html5QrCodeRef (refs s) = None -> isScanning (ui s) = false ->
      wasScanningRef (refs s) = false ->
      forall os, call stopScanning os s = (s, Finished tt, []))
  /\ (forall h v1 v2 rest, html5QrCodeRef (refs s) = Some h ->
      let s1 := fst (fst (call stopScanning
                            (Resolved v1 :: Resolved v2 :: rest) s)) in
      isScanning (ui s1) = false
      /\ html5QrCodeRef (refs s1) = None
      /\ wasScanningRef (refs s1) = false
      /\ (h ∉ streams (outside s1))
      /\ forall os, call stopScanning os s1 = (s1, Finished tt, []))
  /\ (forall os,
      let s1 := fst (fst (call stopScanning os s)) in
      fst (fst (call stopScanning os s1)) = s1)
  /\ (forall h e rest, html5QrCodeRef (refs s) = Some h ->
      call stopScanning (Rejected e :: rest) s
      = (set_wasScanningRef false s, Finished tt, [DecoderStop h])).
Proof.
  destruct s as [[isS sd ss sh er ii ps sp sc] [ref ls seen was]
                   [tm fb inst strm] w].
  cbn [refs ui html5QrCodeRef isScanning wasScanningRef].
  repeat apply conj.
  - intros os Hos. destruct os as [| o1 [| o2 os]]; cbn in Hos; try lia.
    unfold call, stopScanning. cbn.
    destruct ref as [h |]; cbn; [| done].
    destruct o1 as [v1 | e1]; cbn; [| by rewrite ?drive_Finished].
    destruct o2 as [v2 | e2]; cbn; by rewrite ?drive_Finished.
  - intros ->. intros os. unfold call, stopScanning. cbn.
    by rewrite ?drive_Finished.
  - intros -> -> ->. intros os. unfold call, stopScanning. cbn.
    by rewrite ?drive_Finished.
  - intros h v1 v2 rest ->. unfold call, stopScanning. cbn.
    rewrite ?drive_Finished. cbn. repeat split.
    + rewrite list_elem_of_filter. tauto.
    + intros os. by rewrite ?drive_Finished.
  - intros os. unfold call, stopScanning. cbn.
    destruct ref as [h |]; cbn.
    + destruct os as [| [v1 | e1] [| [v2 | e2] os]]; cbn;
        rewrite ?drive_Finished; cbn;
        unfold set_wasScanningRef, set_streams, upd_refs, upd_outside; cbn;
        rewrite ?filter_ne_idem, ?drive_Finished; done.
    + rewrite ?drive_Finished. cbn. by rewrite ?drive_Finished.
  - intros h e rest ->. unfold call, stopScanning. cbn.
    by rewrite ?drive_Finished.
Qed.

(** Stop on a scanner that was never started. *)
Lemma C9_witness :
  call stopScanning [] (initial localhost)
  = (initial localhost, Finished tt, []).
Proof.
  apply (C9_stop_swallows_and_settles (initial localhost));
    reflexivity.
Defined.

(** ** The insecure origin *)

Lemma prefix_marker (x : string) :
  String.prefix "HTTPS_REQUIRED" ("HTTPS_REQUIRED:" ++ x) = true.
Proof. reflexivity. Qed.

(** C7: on an origin that is not HTTPS and whose host is neither
    [localhost] nor [127.0.0.1], [requestCameraPermission] returns
    without awaiting anything (no [getUserMedia], no decoder), with an
    error that starts with [HTTPS_REQUIRED:] and the permission
    marked denied.  On a secure origin where [getUserMedia] is
    rejected as not allowed, the error is the permission-denied
    message, and the two errors differ. *)
Theorem C7_insecure_context_before_camera
    (s1 s2 : State) (e : Exn) (os : list Outcome) :
  protocol (world s1) <> "https:" ->
  hostname (world s1) <> "localhost" ->
  hostname (world s1) <> "127.0.0.1" ->
  (protocol (world s2) = "https:" \/ hostname (world s2) = "localhost"
   \/ hostname (world s2) = "127.0.0.1") ->
  mediaDevices (world s2) = true ->
  (exn_name e = "NotAllowedError" \/ exn_name e = "PermissionDeniedError") ->
  String.prefix "HTTPS_REQUIRED" (exn_message e) = false ->
  let r1 := call requestCameraPermission os s1 in
  let r2 := call requestCameraPermission (Rejected e :: os) s2 in
  (snd r1 = [] /\ snd (fst r1) = Finished tt
   /\ (exists h, error (ui (fst (fst r1))) = Some ("HTTPS_REQUIRED:" ++ h))
   /\ permissionStatus (ui (fst (fst r1))) = PermDenied
   /\ isInitializing (ui (fst (fst r1))) = false
   /\ outside (fst (fst r1)) = outside s1)
  /\ (snd r2 = [GetUserMedia] /\ snd (fst r2) = Finished tt
      /\ error (ui (fst (fst r2))) = Some permission_denied_message
      /\ permissionStatus (ui (fst (fst r2))) = PermDenied)
  /\ error (ui (fst (fst r1))) <> error (ui (fst (fst r2))).
Proof.
  intros Hp Hl Hi Hsec Hmd Hname Hmsg. cbv zeta.
  assert (call requestCameraPermission os s1 =
    (setError (Some ("HTTPS_REQUIRED:"
        ++ nth 2 (split_colon ("HTTPS_REQUIRED:" ++ protocol (world s1)
                               ++ ":" ++ hostname (world s1)))
             "undefined"))
      (setPermissionStatus PermDenied (setIsInitializing false
        (setIsSecureContext false (setShowPermissionPrompt false
          (setIsInitializing true (setError None s1)))))),
     Finished tt, [])) as ->.
  { unfold call, requestCameraPermission. cbn.
    rewrite !bool_decide_eq_false_2 by done. cbn.
    rewrite prefix_marker.
    destruct s1 as [[isS sd ss sh er ii ps sp sc] [ref ls seen was]
                      [tm fb inst strm] w]. cbn.
    by rewrite drive_Finished. }
  assert (call requestCameraPermission (Rejected e :: os) s2 =
    (setError (Some permission_denied_message)
      (setPermissionStatus PermDenied (setIsInitializing false
        (setIsSecureContext true (setShowPermissionPrompt false
          (setIsInitializing true (setError None s2)))))),
     Finished tt, [GetUserMedia])) as ->.
  { unfold call, requestCameraPermission. cbn.
    assert (bool_decide (protocol (world s2) = "https:")
            || (bool_decide (hostname (world s2) = "localhost")
                || bool_decide (hostname (world s2) = "127.0.0.1"))
            = true) as ->.
    { destruct Hsec as [-> | [-> | ->]]; cbn; try done;
        by destruct (bool_decide _). }
    cbn. rewrite Hmd. cbn. rewrite Hmsg.
    assert (bool_decide (exn_name e = "NotAllowedError")
            || bool_decide (exn_name e = "PermissionDeniedError")
            = true) as ->.
    { destruct Hname as [-> | ->]; cbn; done. }
    destruct s2 as [[isS sd ss sh er ii ps sp sc] [ref ls seen was]
                      [tm fb inst strm] w]. cbn.
    by rewrite drive_Finished. }
  destruct s1 as [[isS sd ss sh er ii ps sp sc] [ref ls seen was]
                    [tm fb inst strm] w].
  destruct s2 as [[isS' sd' ss' sh' er' ii' ps' sp' sc'] [ref' ls' seen' was']
                    [tm' fb' inst' strm'] w'].
  cbn. repeat split; eauto; discriminate.
Qed.

(** The LAN address against localhost with the camera refused. *)
Lemma C7_witness :
  error (ui (fst (fst (call requestCameraPermission [] (initial lan)))))
  <> error (ui (fst (fst (call requestCameraPermission
                            [Rejected NotAllowedError]
                            (initial localhost))))).
Proof.
  apply (C7_insecure_context_before_camera
           (initial lan) (initial localhost) NotAllowedError []);
    solve [ discriminate | reflexivity | left; reflexivity
          | right; left; reflexivity ].
Defined.

(** * Further properties *)

(** ** Sequences of scans *)

(** The outcome of a scan, read off the state it meets. *)
Lemma outcome_by_state decodedText decodedResult now s :
  fst (handleScanSuccess decodedText decodedResult now s)
  = if debounced (lastScanRef (refs s)) decodedText now then Suppressed
    else if bool_decide (decodedText ∈ scannedCodesRef (refs s))
         then Duplicate else Accepted.
Proof.
  unfold handleScanSuccess. destruct (debounced _ _ _); [done |].
  destruct s as [[isS sd ss sh er ii ps sp sc] [r l c w] o wd]. cbn.
  by case_bool_decide.
Qed.

(** After a scan that was not suppressed, its code is the last
    sighting and is in the seen set. *)
Lemma after_scan decodedText decodedResult now s :
  fst (handleScanSuccess decodedText decodedResult now s) <> Suppressed ->
  let s' := snd (handleScanSuccess decodedText decodedResult now s) in
  lastScanRef (refs s') = MkLastScan (Some decodedText) now
  /\ decodedText ∈ scannedCodesRef (refs s').
Proof.
  cbv zeta. unfold handleScanSuccess. destruct (debounced _ _ _); [done |].
  intros _. destruct s as [[isS sd ss sh er ii ps sp sc] [r l c w] o wd]. cbn.
  case_bool_decide; cbn; split; try done.
  apply elem_of_union_l, elem_of_singleton. done.
Qed.

Lemma handleScanSuccess_seen_cases decodedText decodedResult now s :
  let r := handleScanSuccess decodedText decodedResult now s in
  match fst r with
  | Accepted =>
      (decodedText ∉ scannedCodesRef (refs s))
      /\ scannedCodesRef (refs (snd r))
         = {[ decodedText ]} ∪ scannedCodesRef (refs s)
  | _ => scannedCodesRef (refs (snd r)) = scannedCodesRef (refs s)
  end.
Proof.
  cbv zeta. unfold handleScanSuccess.
  destruct (debounced _ _ _); [done |].
  destruct s as [[isS sd ss sh er ii ps sp sc] [r l c w] o wd]. cbn.
  case_bool_decide; cbn; done.
Qed.

(** X1: over any sequence of scans from any state, no code is accepted
    twice, no code of the seen set is accepted, and the seen set ends
    as the one it was plus the accepted codes. *)
Theorem X1_no_code_accepted_twice
    (evs : list (string * DecodedResult * Z)) (s : State) :
  NoDup (accepted_codes evs s)
  /\ (forall c, c ∈ accepted_codes evs s -> c ∉ scannedCodesRef (refs s))
  /\ scannedCodesRef (refs (after_scans evs s))
     = list_to_set (accepted_codes evs s) ∪ scannedCodesRef (refs s).
Proof.
  revert s. induction evs as [| [[c r] t] evs IH]; intros s; cbn.
  - split; [constructor |].
    split; [intros c Hc; by apply elem_of_nil in Hc |].
    by rewrite (left_id_L ∅ (∪)).
  - pose proof (handleScanSuccess_seen_cases c r t s) as Hc. cbv zeta in Hc.
    destruct (IH (snd (handleScanSuccess c r t s))) as (Hnd & Hdis & Hseen).
    destruct (fst (handleScanSuccess c r t s)).
    + rewrite Hc in Hdis, Hseen. done.
    + rewrite Hc in Hdis, Hseen. done.
    + destruct Hc as [Hnew Hc]. rewrite Hc in Hdis, Hseen.
      split; [| split].
      * constructor; [| done]. intros Hin. apply Hdis in Hin.
        apply Hin, elem_of_union_l, elem_of_singleton. done.
      * intros c' [-> | Hin]%elem_of_cons; [done |].
        apply Hdis in Hin. intros Hc'. apply Hin, elem_of_union_r, Hc'.
      * rewrite Hseen, list_to_set_cons.
        rewrite (comm_L (∪) {[ c ]} (list_to_set (accepted_codes evs _))).
        by rewrite (assoc_L (∪)).
Qed.

(** [A] twice, then [B], then [A] again: [A] is accepted once. *)
Lemma X1_witness :
  NoDup (accepted_codes
           [("A", "raw", 0); ("A", "raw", 5000); ("B", "raw", 5001);
            ("A", "raw", 9000)]
           (initial localhost)).
Proof.
  apply (X1_no_code_accepted_twice
           [("A", "raw", 0); ("A", "raw", 5000); ("B", "raw", 5001);
            ("A", "raw", 9000)]
           (initial localhost)).
Defined.

(** X2: once a code has been scanned and not suppressed, the next scan
    of the same code is suppressed when less than 2000 ms have passed
    since, and a duplicate otherwise; it is never accepted. *)
Theorem X2_next_sighting_of_same_code
    (c : string) (r r' : DecodedResult) (t t' : Z) (s : State) :
  fst (handleScanSuccess c r t s) <> Suppressed ->
  fst (handleScanSuccess c r' t' (snd (handleScanSuccess c r t s)))
  = if t' - t <? 2000 then Suppressed else Duplicate.
Proof.
  intros Ho. destruct (after_scan c r t s Ho) as [Hl Hin].
  rewrite outcome_by_state, Hl. unfold debounced, DEBOUNCE_TIME. cbn.
  rewrite bool_decide_eq_true_2 by done. cbn.
  destruct (t' - t <? 2000); [done |].
  by rewrite bool_decide_eq_true_2.
Qed.

(** [A] at 0 ms and again at exactly 2000 ms. *)
Lemma X2_witness :
  fst (handleScanSuccess "A" "raw" 2000
         (snd (handleScanSuccess "A" "raw" 0 (initial localhost))))
  = Duplicate.
Proof.
  apply (X2_next_sighting_of_same_code "A" "raw" "raw" 0 2000
           (initial localhost)).
  vm_compute. discriminate.
Defined.

(** X3: the debounce remembers one code only.  When another code is
    scanned in between, that scan is not suppressed, and the first
    code, scanned again however soon, is a duplicate. *)
Theorem X3_other_code_ends_debounce
    (c d : string) (r1 r2 r3 : DecodedResult) (t1 t2 t3 : Z) (s : State) :
  c <> d ->
  fst (handleScanSuccess c r1 t1 s) <> Suppressed ->
  let s1 := snd (handleScanSuccess c r1 t1 s) in
  let s2 := snd (handleScanSuccess d r2 t2 s1) in
  fst (handleScanSuccess d r2 t2 s1) <> Suppressed
  /\ fst (handleScanSuccess c r3 t3 s2) = Duplicate.
Proof.
  intros Hcd Ho. cbv zeta. destruct (after_scan c r1 t1 s Ho) as [Hl Hin].
  assert (fst (handleScanSuccess d r2 t2 (snd (handleScanSuccess c r1 t1 s)))
          <> Suppressed) as Ho2.
  { rewrite outcome_by_state, Hl. unfold debounced. cbn.
    rewrite bool_decide_eq_false_2 by congruence. cbn.
    by case_bool_decide. }
  split; [done |].
  destruct (after_scan d r2 t2 _ Ho2) as [Hl2 _].
  rewrite outcome_by_state, Hl2. unfold debounced. cbn.
  rewrite bool_decide_eq_false_2 by congruence. cbn.
  rewrite bool_decide_eq_true_2; [done |].
  eapply handleScanSuccess_seen, Hin.
Qed.

(** [A], [B] and [A] within two milliseconds. *)
Lemma X3_witness :
  fst (handleScanSuccess "A" "raw" 2
         (snd (handleScanSuccess "B" "raw" 1
                 (snd (handleScanSuccess "A" "raw" 0 (initial localhost))))))
  = Duplicate.
Proof.
  apply (X3_other_code_ends_debounce "A" "B" "raw" "raw" "raw" 0 1 2
           (initial localhost)).
  - discriminate.
  - vm_compute. discriminate.
Defined.

(** ** The ledger in reachable states *)

(** A property of the ledger that holds at mount and is kept by scans
    and timers holds in every reachable state. *)
Lemma reachable_ledger_invariant (P : State -> Prop) :
  (forall s s', ledger s' = ledger s -> P s -> P s') ->
  (forall w, P (initial w)) ->
  (forall c r t s, P s -> P (snd (handleScanSuccess c r t s))) ->
  (forall i s, P s -> P (fire_timer i s)) ->
  forall y, reachable y -> P (app y).
Proof.
  intros Hl H0 Hscan Htimer y Hr.
  induction Hr as [w | e y Hr IH He].
  - destruct (invoke_quiet mount (MkSys (initial w) [])) as [Hb _];
      [apply quiet_mount | constructor |].
    eapply Hl; [exact Hb | apply H0].
  - pose proof (reachable_quiet y Hr) as Hq.
    destruct e; cbn [step];
      try (match goal with
           | |- context [invoke ?t y] =>
               destruct (invoke_quiet t y) as [Hi _];
               [ first [ apply quiet_requestCameraPermission
                       | apply quiet_stopScanning
                       | apply quiet_handleVisibilityChange
                       | apply quiet_handleFocus
                       | apply quiet_handlePageShow
                       | apply quiet_permission_onchange ]
               | done | by eapply Hl ]
           end).
    + by apply Hscan.
    + by apply Htimer.
    + destruct (resolve_quiet i o y Hq) as [Hi _]. by eapply Hl.
Qed.

Lemma history_ok_scan c r t s :
  history_ok s -> history_ok (snd (handleScanSuccess c r t s)).
Proof.
  intros [Hf Hnd]. unfold history_ok.
  pose proof (handleScanSuccess_history c r t s) as Hh.
  pose proof (handleScanSuccess_seen c r t s) as Hs.
  pose proof (handleScanSuccess_seen_cases c r t s) as Hc.
  cbv zeta in Hh, Hc.
  assert (Forall (fun e => he_isDuplicate e = false
            /\ he_text e ∈ scannedCodesRef
                 (refs (snd (handleScanSuccess c r t s))))
            (scanHistory (ui s))) as Hf'.
  { eapply Forall_impl; [exact Hf |]. intros e [H1 H2]. split; [done |].
    by apply Hs. }
  destruct (fst (handleScanSuccess c r t s)) eqn:Ho; rewrite Hh; try done.
  destruct Hc as [Hnew Hc]. split.
  - constructor; [| by apply Forall_take]. cbn. split; [done |].
    rewrite Hc. apply elem_of_union_l, elem_of_singleton. done.
  - rewrite fmap_cons. cbn. constructor.
    + intros Hin.
      apply list_elem_of_fmap in Hin as (e & He1 & He2).
      apply elem_of_take in He2 as (j & He2 & _).
      rewrite Forall_lookup in Hf. destruct (Hf j e He2) as [_ Hin].
      rewrite <- He1 in Hin. done.
    + rewrite fmap_take.
      eapply sublist_NoDup; [exact Hnd | apply sublist_take].
Qed.

(** X4: in every reachable state, no entry of the history is marked
    duplicate (the list never shows its Duplicate badge), every entry's
    code is in the seen set, and no code has two entries. *)
Theorem X4_history_entries (y : Sys) :
  reachable y ->
  Forall (fun e => he_isDuplicate e = false /\ he_text e ∈ seenCodes y)
         (history y)
  /\ NoDup (he_text <$> history y).
Proof.
  apply (reachable_ledger_invariant history_ok).
  - intros s s' Hl. unfold history_ok. apply ledger_history in Hl as [-> ->].
    done.
  - intros w. split; constructor.
  - apply history_ok_scan.
  - intros i s. unfold history_ok.
    by destruct (fire_timer_history i s) as [-> ->].
Qed.

(** The history after the four scans of the scenario. *)
Lemma X4_witness :
  exists y, exec (to_active ++ four_scans) (boot localhost) = Some y
    /\ NoDup (he_text <$> history y).
Proof.
  eexists. split; [vm_compute; reflexivity |].
  apply X4_history_entries.
  eapply (exec_reachable (to_active ++ four_scans) (boot localhost));
    [apply reach_boot | vm_compute; reflexivity].
Defined.

Lemma display_ok_scan c r t s :
  display_ok s -> display_ok (snd (handleScanSuccess c r t s)).
Proof.
  unfold handleScanSuccess. destruct (debounced _ _ _); [done |]. intros _.
  destruct s as [[isS sd ss sh er ii ps sp sc] [rf l cs w] [tm fb n st] wd].
  unfold display_ok. cbn.
  case_bool_decide; cbn; repeat split; try done.
  - by destruct tm.
  - apply elem_of_union_l, elem_of_singleton. done.
  - by destruct tm.
Qed.

Lemma display_ok_timer i s : display_ok s -> display_ok (fire_timer i s).
Proof.
  unfold fire_timer. destruct (timers (outside s) !! i); [| done]. intros _.
  by destruct s as [[isS sd ss sh er ii ps sp sc] [rf l cs w] [tm fb n st] wd].
Qed.

(** X5: in every reachable state a result is displayed exactly when a
    status is; the status then says whether the result is a duplicate,
    the displayed code is the last sighting and is in the seen set, and
    a timer that will clear the display is pending. *)
Theorem X5_display_consistent (y : Sys) :
  reachable y ->
  (scannedData (ui (app y)) = None <-> scanStatus (ui (app y)) = None)
  /\ forall d, scannedData (ui (app y)) = Some d ->
       scanStatus (ui (app y))
       = Some (if sd_isDuplicate d then StatusDuplicate else StatusSuccess)
       /\ ls_code (lastScanRef (refs (app y))) = Some (sd_text d)
       /\ sd_text d ∈ seenCodes y
       /\ timers (outside (app y)) <> [].
Proof.
  intros Hr.
  assert (display_ok (app y)) as Hd.
  { revert y Hr. apply (reachable_ledger_invariant display_ok).
    - intros s s' Hl. unfold display_ok. unfold ledger in Hl.
      injection Hl as _ -> -> -> -> -> _. done.
    - intros w. exact I.
    - apply display_ok_scan.
    - apply display_ok_timer. }
  unfold display_ok, seenCodes in *.
  destruct (scannedData (ui (app y))) as [d |],
           (scanStatus (ui (app y))) as [st |]; try done.
  destruct Hd as (-> & H1 & H2 & H3). split; [done |].
  by intros d' [= <-].
Qed.

(** The display after the four scans of the scenario. *)
Lemma X5_witness :
  exists y, exec (to_active ++ four_scans) (boot localhost) = Some y
    /\ (scannedData (ui (app y)) = None <-> scanStatus (ui (app y)) = None).
Proof.
  eexists. split; [vm_compute; reflexivity |].
  apply X5_display_consistent.
  eapply (exec_reachable (to_active ++ four_scans) (boot localhost));
    [apply reach_boot | vm_compute; reflexivity].
Defined.

(** X6: from a reachable state, an event that is neither a scan nor an
    auto-clear timer (a button, a visibility or permission change, an
    unmount, a promise that settles) leaves the last sighting, the seen
    set, the history, the displayed result and its status, the pending
    timers and the requested feedback as they were. *)
Theorem X6_camera_events_keep_ledger (y : Sys) (e : Event) :
  reachable y ->
  (forall c r t, e <> Decoded c r t) ->
  (forall i, e <> TimerFires i) ->
  ledger (app (step e y)) = ledger (app y).
Proof.
  intros Hr Hd Ht. pose proof (reachable_quiet y Hr) as Hq.
  destruct e; cbn [step];
    try (match goal with
         | |- context [invoke ?t y] =>
             apply (invoke_quiet t y); [auto with quiet | done]
         end).
  - by destruct (Hd decodedText decodedResult now).
  - by destruct (Ht i).
  - by apply resolve_quiet.
Qed.

(** Pressing stop while [A] is displayed. *)
Lemma X6_witness :
  exists y, exec (to_active ++ [Decoded "A" "raw" 0]) (boot localhost) = Some y
    /\ ledger (app (step ClickStop y)) = ledger (app y).
Proof.
  eexists. split; [vm_compute; reflexivity |].
  apply X6_camera_events_keep_ledger; [| discriminate | discriminate].
  eapply (exec_reachable (to_active ++ [Decoded "A" "raw" 0])
            (boot localhost));
    [apply reach_boot | vm_compute; reflexivity].
Defined.

(** ** Exceptions *)

Lemma nt_bind {A B : Type} (m : Async A) (f : A -> Async B) :
  never_throws m -> (forall a, never_throws (f a)) -> never_throws (m ≫= f).
Proof.
  intros Hm Hf. unfold mbind, Async_bind.
  induction m as [a | e | k IH | g k IH | c k IH]; cbn in *; auto.
Qed.

Lemma nt_try_catch {A : Type} (m : Async A) (h : Exn -> Async A) :
  (forall e, never_throws (h e)) -> never_throws (try_catch m h).
Proof.
  intros Hh. induction m as [a | e | k IH | g k IH | c k IH]; cbn in *; auto.
Qed.

Lemma nt_assign f : never_throws (assign f).
Proof. exact I. Qed.

Lemma nt_read {A : Type} (f : State -> A) : never_throws (read f).
Proof. intros s. exact I. Qed.

Lemma nt_ret {A : Type} (a : A) : never_throws (mret a : Async A).
Proof. exact I. Qed.

Lemma nt_setTimeout t ms : never_throws t -> never_throws (setTimeout t ms).
Proof. intros H o. exact H. Qed.

Create HintDb nt.
#[local] Hint Resolve nt_assign nt_read nt_ret nt_setTimeout : nt.

(** Every [throw] and every rejected [await] of [m] sits in a [try]
    whose handler does not throw. *)
Ltac nt_walk :=
  repeat first
    [ progress intros
    | solve [auto with nt]
    | apply nt_try_catch
    | apply nt_bind
    | match goal with
      | |- never_throws (if ?b then _ else _) => destruct b
      | |- never_throws (match ?x with _ => _ end) => destruct x
      end ].

Lemma nt_checkSecureContext : never_throws checkSecureContext.
Proof. unfold checkSecureContext. nt_walk. Qed.

Lemma nt_startScanner : never_throws startScanner.
Proof. unfold startScanner. nt_walk. Qed.

#[local] Hint Resolve nt_checkSecureContext nt_startScanner : nt.

Lemma nt_stopScanning : never_throws stopScanning.
Proof. unfold stopScanning. nt_walk. Qed.

Lemma nt_requestCameraPermission : never_throws requestCameraPermission.
Proof. unfold requestCameraPermission. nt_walk. Qed.

Lemma nt_restartScannerIfNeeded sc p v :
  never_throws (restartScannerIfNeeded sc p v).
Proof. unfold restartScannerIfNeeded. nt_walk. Qed.

Lemma nt_autoStartIfPermissionGranted :
  never_throws autoStartIfPermissionGranted.
Proof. unfold autoStartIfPermissionGranted. nt_walk. Qed.

#[local] Hint Resolve nt_stopScanning nt_requestCameraPermission
  nt_restartScannerIfNeeded nt_autoStartIfPermissionGranted : nt.

Lemma nt_on_permission_state st : never_throws (on_permission_state st).
Proof. unfold on_permission_state. nt_walk. Qed.

#[local] Hint Resolve nt_on_permission_state : nt.

Lemma nt_mount : never_throws mount.
Proof. unfold mount, checkPermission. nt_walk. Qed.

Lemma nt_permission_onchange st : never_throws (permission_onchange st).
Proof. unfold permission_onchange. nt_walk. Qed.

Lemma nt_restart_later v : never_throws (restart_later v).
Proof. unfold restart_later. nt_walk. Qed.

#[local] Hint Resolve nt_mount nt_permission_onchange nt_restart_later : nt.

Lemma nt_handleVisibilityChange vs v :
  never_throws (handleVisibilityChange vs v).
Proof. unfold handleVisibilityChange. nt_walk. Qed.

Lemma nt_handleFocus v : never_throws (handleFocus v).
Proof. unfold handleFocus. nt_walk. Qed.

Lemma nt_handlePageShow p v : never_throws (handlePageShow p v).
Proof. unfold handlePageShow. nt_walk. Qed.

#[local] Hint Resolve nt_handleVisibilityChange nt_handleFocus
  nt_handlePageShow : nt.

Lemma run_never_throws {A : Type} (m : Async A) (s : State) :
  never_throws m ->
  match snd (run m s) with
  | Finished _ => True
  | Threw _ => False
  | Blocked _ k => forall o, never_throws (k o)
  end.
Proof.
  revert s. induction m as [a | e | k IH | g k IH | c k IH]; intros s Hm;
    cbn in *; try done; by apply IH.
Qed.

Lemma call_never_throws {A : Type} (m : Async A) (os : list Outcome)
    (s : State) :
  never_throws m -> uncaught (call m os s) = false.
Proof.
  intros Hm. unfold uncaught, call.
  pose proof (run_never_throws m s Hm) as Hr.
  revert Hr. generalize (run m s). clear Hm.
  induction os as [| o os IH]; intros [s' [a | e' | c k]] Hr; cbn in *;
    try done.
  specialize (IH (run (k o) (effect c o s'))
                 (run_never_throws _ _ (Hr o))).
  by destruct (drive os (run (k o) (effect c o s'))) as [r' cs].
Qed.

(** X7: no function of the component lets an error object escape.  In
    any state, and whether the browser and the decoder resolve each
    awaited call or reject it with an error value whose [name] and
    [message] are strings or missing (an [Error], a [DOMException], a
    string), the mount effect, the handlers of the buttons, of the
    visibility, focus and pageshow events and of the permission change,
    and the functions they call never end by throwing.  Rejections
    with [undefined] or [null] are not covered. *)
Theorem X7_no_exception_escapes (os : list Outcome) (s : State) :
  uncaught (call mount os s) = false
  /\ uncaught (call requestCameraPermission os s) = false
  /\ uncaught (call stopScanning os s) = false
  /\ uncaught (call startScanner os s) = false
  /\ uncaught (call autoStartIfPermissionGranted os s) = false
  /\ (forall sc p v,
        uncaught (call (restartScannerIfNeeded sc p v) os s) = false)
  /\ (forall vs v, uncaught (call (handleVisibilityChange vs v) os s) = false)
  /\ (forall v, uncaught (call (handleFocus v) os s) = false)
  /\ (forall p v, uncaught (call (handlePageShow p v) os s) = false)
  /\ (forall st, uncaught (call (permission_onchange st) os s) = false).
Proof.
  repeat split; intros; apply call_never_throws; auto with nt.
Qed.

(** ** Asking for the camera *)

Ltac open_state s :=
  destruct s as [[isS sd ss sh er ii ps sp sc] [ref ls seen was]
                   [tm fb inst strm] w].

Lemma string_append_cons c a b : String c a ++ b = String c (a ++ b).
Proof. reflexivity. Qed.

Lemma string_append_assoc (a b c : string) : (a ++ b) ++ c = a ++ (b ++ c).
Proof.
  induction a as [| x a IH]; [done |].
  rewrite !string_append_cons. by rewrite IH.
Qed.

Lemma split_colon_piece (p rest : string) :
  colon_free p = true ->
  split_colon (p ++ ":" ++ rest) = p :: split_colon rest.
Proof.
  induction p as [| c p IH]; [done |]. cbn [colon_free].
  intros [Hc Hp]%andb_true_iff. rewrite string_append_cons.
  cbn [split_colon]. apply negb_true_iff in Hc. rewrite Hc, (IH Hp). done.
Qed.

Lemma secure_origin (s : State) :
  protocol (world s) = "https:" \/ hostname (world s) = "localhost"
  \/ hostname (world s) = "127.0.0.1" ->
  bool_decide (protocol (world s) = "https:")
  || (bool_decide (hostname (world s) = "localhost")
      || bool_decide (hostname (world s) = "127.0.0.1")) = true.
Proof.
  intros [-> | [-> | ->]]; cbn; try done; by destruct (bool_decide _).
Qed.

(** X8: the error shown on an insecure origin never names the host.
    The thrown message is ['HTTPS_REQUIRED:' + protocol + ':' +
    hostname] and the handler shows ['HTTPS_REQUIRED:'] followed by the
    third piece of its split at [':']; [location.protocol] ends in a
    colon, so that piece is the empty string and the error is exactly
    ['HTTPS_REQUIRED:'], whatever the host. *)
Theorem X8_insecure_error_omits_host
    (s : State) (p : string) (os : list Outcome) :
  colon_free p = true ->
  protocol (world s) = p ++ ":" ->
  protocol (world s) <> "https:" ->
  hostname (world s) <> "localhost" ->
  hostname (world s) <> "127.0.0.1" ->
  error (ui (fst (fst (call requestCameraPermission os s))))
  = Some "HTTPS_REQUIRED:".
Proof.
  intros Hp Hpr Hns Hl Hi.
  unfold call, requestCameraPermission. cbn.
  rewrite !bool_decide_eq_false_2 by done. cbn.
  rewrite prefix_marker.
  assert (nth 2 (split_colon ("HTTPS_REQUIRED:" ++ protocol (world s)
                              ++ ":" ++ hostname (world s))) "undefined"
          = "") as ->.
  { rewrite Hpr.
    change ("HTTPS_REQUIRED:" ++ (p ++ ":") ++ ":" ++ hostname (world s))
      with ("HTTPS_REQUIRED" ++ ":"
            ++ ((p ++ ":") ++ ":" ++ hostname (world s))).
    rewrite split_colon_piece by done. rewrite string_append_assoc.
    rewrite split_colon_piece by done.
    change (":" ++ hostname (world s)) with ("" ++ ":" ++ hostname (world s)).
    rewrite split_colon_piece by done. done. }
  open_state s. cbn. by rewrite drive_Finished.
Qed.

(** The page served from 192.168.1.5 over http. *)
Lemma X8_witness :
  error (ui (fst (fst (call requestCameraPermission [] (initial lan)))))
  = Some "HTTPS_REQUIRED:".
Proof.
  apply (X8_insecure_error_omits_host (initial lan) "http" []);
    solve [reflexivity | discriminate].
Defined.

(** X9: on a secure origin, when [getUserMedia] rejects with
    [NotFoundError] or [DevicesNotFoundError] the error is the
    no-camera message; the permission status is left as it was (it does
    not become ['denied']), the spinner is off, and neither a decoder
    nor a timer was touched. *)
Theorem X9_no_camera_found (s : State) (e : Exn) (os : list Outcome) :
  (protocol (world s) = "https:" \/ hostname (world s) = "localhost"
   \/ hostname (world s) = "127.0.0.1") ->
  mediaDevices (world s) = true ->
  (exn_name e = "NotFoundError" \/ exn_name e = "DevicesNotFoundError") ->
  String.prefix "HTTPS_REQUIRED" (exn_message e) = false ->
  let r := call requestCameraPermission (Rejected e :: os) s in
  snd r = [GetUserMedia] /\ snd (fst r) = Finished tt
  /\ error (ui (fst (fst r)))
     = Some "No camera found. Please use a device with a camera."
  /\ permissionStatus (ui (fst (fst r))) = permissionStatus (ui s)
  /\ isInitializing (ui (fst (fst r))) = false
  /\ refs (fst (fst r)) = refs s /\ outside (fst (fst r)) = outside s.
Proof.
  intros Hsec Hmd Hname Hmsg. cbv zeta.
  unfold call, requestCameraPermission. cbn.
  rewrite (secure_origin s Hsec). cbn. rewrite Hmd. cbn. rewrite Hmsg.
  assert (bool_decide (exn_name e = "NotAllowedError")
          || bool_decide (exn_name e = "PermissionDeniedError") = false) as ->.
  { destruct Hname as [-> | ->]; done. }
  assert (bool_decide (exn_name e = "NotFoundError")
          || bool_decide (exn_name e = "DevicesNotFoundError") = true) as ->.
  { destruct Hname as [-> | ->]; done. }
  open_state s. cbn. by rewrite drive_Finished.
Qed.

(** A device without a camera, on localhost. *)
Lemma X9_witness :
  error (ui (fst (fst (call requestCameraPermission
                         [Rejected (MkExn "NotFoundError" "no device")]
                         (initial localhost)))))
  = Some "No camera found. Please use a device with a camera.".
Proof.
  destruct (X9_no_camera_found (initial localhost)
              (MkExn "NotFoundError" "no device") []
              (or_intror (or_introl eq_refl)) eq_refl (or_introl eq_refl)
              eq_refl)
    as (_ & _ & H & _).
  exact H.
Defined.

(** X10: on a secure origin without [navigator.mediaDevices.getUserMedia]
    nothing is awaited: the error is the camera-not-supported message,
    the permission status is left as it was, the spinner and the
    permission prompt are off. *)
Theorem X10_camera_not_supported (s : State) (os : list Outcome) :
  (protocol (world s) = "https:" \/ hostname (world s) = "localhost"
   \/ hostname (world s) = "127.0.0.1") ->
  mediaDevices (world s) = false ->
  let r := call requestCameraPermission os s in
  snd r = [] /\ snd (fst r) = Finished tt
  /\ error (ui (fst (fst r)))
     = Some "Camera not supported. Please use a device with a camera."
  /\ permissionStatus (ui (fst (fst r))) = permissionStatus (ui s)
  /\ isInitializing (ui (fst (fst r))) = false
  /\ showPermissionPrompt (ui (fst (fst r))) = false.
Proof.
  intros Hsec Hmd. cbv zeta.
  unfold call, requestCameraPermission. cbn.
  rewrite (secure_origin s Hsec). cbn. rewrite Hmd. cbn.
  rewrite !bool_decide_eq_false_2 by done. cbn.
  unfold or_else. rewrite bool_decide_eq_false_2 by done.
  open_state s. cbn. by rewrite drive_Finished.
Qed.

(** A browser without the camera API, on localhost. *)
Lemma X10_witness :
  error (ui (fst (fst (call requestCameraPermission []
                         (initial (MkWorld "http:" "localhost"
                                     false true true))))))
  = Some "Camera not supported. Please use a device with a camera.".
Proof.
  destruct (X10_camera_not_supported
              (initial (MkWorld "http:" "localhost" false true true)) []
              (or_intror (or_introl eq_refl)) eq_refl)
    as (_ & _ & H & _).
  exact H.
Defined.

(** ** Starting and restarting *)

(** X11: when the decoder rejects all three starts, [startScanner]
    ends normally with the message of the third rejection as the error
    (or the fallback text when that message is empty), no decoder
    referenced, not scanning and the spinner off; [wasScanningRef] is
    left as it was, and the decoder instance it created is dropped. *)
Theorem X11_all_starts_rejected
    (s : State) (e1 e2 e3 : Exn) (o4 o5 : Outcome) (rest : list Outcome) :
  readerElement (world s) = true ->
  let r := call startScanner
             (ok :: Rejected e1 :: Rejected e2 :: Rejected e3
                 :: o4 :: o5 :: rest) s in
  snd (fst r) = Finished tt
  /\ error (ui (fst (fst r)))
     = Some (or_else (exn_message e3)
               "Failed to start camera. Please check permissions.")
  /\ html5QrCodeRef (refs (fst (fst r))) = None
  /\ isScanning (ui (fst (fst r))) = false
  /\ isInitializing (ui (fst (fst r))) = false
  /\ wasScanningRef (refs (fst (fst r))) = wasScanningRef (refs s)
  /\ instances (outside (fst (fst r))) = S (instances (outside s)).
Proof.
  intros Hr. cbv zeta. unfold call, startScanner. cbn. rewrite Hr. cbn.
  open_state s. cbn in *.
  case_bool_decide; cbn.
  - destruct o4 as [v4 | e4], o5 as [v5 | e5]; cbn;
      rewrite ?drive_Finished; done.
  - destruct o4 as [v4 | e4]; cbn; rewrite ?drive_Finished; done.
Qed.

(** Three rejections; the third one has a message. *)
Lemma X11_witness :
  error (ui (fst (fst (call startScanner
                         [ok; Rejected not_running; Rejected not_running;
                          Rejected (MkExn "NotReadableError" "busy");
                          ok; ok]
                         (initial localhost)))))
  = Some "busy".
Proof.
  destruct (X11_all_starts_rejected (initial localhost)
              not_running not_running (MkExn "NotReadableError" "busy")
              ok ok [] eq_refl)
    as (_ & H & _).
  exact H.
Defined.

(** X12: when the page has no [#reader] element, [startScanner] creates
    no decoder and starts none: it ends with the container-not-found
    error, not scanning, spinner off, no decoder referenced. *)
Theorem X12_reader_element_missing
    (s : State) (o1 o2 : Outcome) (rest : list Outcome) :
  readerElement (world s) = false ->
  let r := call startScanner (o1 :: o2 :: rest) s in
  snd (fst r) = Finished tt
  /\ starts (snd r) = []
  /\ instances (outside (fst (fst r))) = instances (outside s)
  /\ error (ui (fst (fst r)))
     = Some "Scanner container not found. Please refresh the page."
  /\ isScanning (ui (fst (fst r))) = false
  /\ isInitializing (ui (fst (fst r))) = false
  /\ html5QrCodeRef (refs (fst (fst r))) = None.
Proof.
  intros Hr. cbv zeta. unfold call, startScanner. cbn. rewrite Hr. cbn.
  unfold or_else. rewrite bool_decide_eq_false_2 by done.
  open_state s. cbn in *.
  destruct ref as [h |]; cbn; [| by rewrite ?drive_Finished].
  case_bool_decide; cbn.
  - destruct o1 as [v1 | e1], o2 as [v2 | e2]; cbn;
      rewrite ?drive_Finished; done.
  - destruct o1 as [v1 | e1]; cbn; rewrite ?drive_Finished; done.
Qed.

(** A page without the reader element. *)
Lemma X12_witness :
  error (ui (fst (fst (call startScanner [ok; ok]
                         (initial (MkWorld "http:" "localhost"
                                     true true false))))))
  = Some "Scanner container not found. Please refresh the page.".
Proof.
  destruct (X12_reader_element_missing
              (initial (MkWorld "http:" "localhost" true true false))
              ok ok [] eq_refl)
    as (_ & _ & _ & H & _).
  exact H.
Defined.

(** X13: [restartScannerIfNeeded] does nothing at all (no assignment,
    no call) when the scanner was not running before, or the
    permission of its render is not ['granted'], or its render is
    scanning and the video is playing. *)
Theorem X13_restart_guard
    (scanning : bool) (permission : PermissionStatus) (video : option Video)
    (os : list Outcome) (s : State) :
  wasScanningRef (refs s) = false \/ permission <> PermGranted
  \/ (scanning = true /\ checkCameraWorking video = true) ->
  call (restartScannerIfNeeded scanning permission video) os s
  = (s, Finished tt, []).
Proof.
  intros H. unfold call, restartScannerIfNeeded. cbn.
  destruct H as [-> | [Hp | [-> ->]]]; cbn.
  - by rewrite drive_Finished.
  - rewrite (bool_decide_eq_false_2 _ Hp), andb_false_r. cbn.
    by rewrite drive_Finished.
  - destruct (_ && _); cbn; by rewrite drive_Finished.
Qed.

(** A restart asked for while the permission is still ['prompt']. *)
Lemma X13_witness :
  call (restartScannerIfNeeded false PermPrompt None) [ok]
       (set_wasScanningRef true (initial localhost))
  = (set_wasScanningRef true (initial localhost), Finished tt, []).
Proof.
  apply (X13_restart_guard false PermPrompt None [ok]
           (set_wasScanningRef true (initial localhost))).
  right. left. discriminate.
Defined.

(** X14: a restart that is due (the scanner was running, permission
    granted, and the render is not scanning or the video is not
    playing) recovers whatever the old decoder answers to the cleanup:
    it stops and clears the old decoder (a rejection is swallowed, and
    a rejected stop skips the clear), drops it, waits 500 ms, and
    starts a fresh decoder, ending scanning with no error.  The old
    stream is gone only if the old decoder agreed to stop. *)
Theorem X14_restart_recovers
    (scanning : bool) (video : option Video) (s : State) (h0 : nat)
    (o_stop o_clear : Outcome) (v : Value) (rest : list Outcome) :
  wasScanningRef (refs s) = true ->
  (scanning = false \/ checkCameraWorking video = false) ->
  html5QrCodeRef (refs s) = Some h0 ->
  readerElement (world s) = true ->
  let cleanup := if resolved o_stop then [o_stop; o_clear] else [o_stop] in
  let r := call (restartScannerIfNeeded scanning PermGranted video)
             (cleanup ++ ok :: ok :: Resolved v :: rest)%list s in
  let h1 := instances (outside s) in
  snd (fst r) = Finished tt
  /\ snd r = ((if resolved o_stop then [DecoderStop h0; DecoderClear h0]
               else [DecoderStop h0])
              ++ [Delay 500; Delay 100;
                  DecoderStart h1 (FacingMode "environment")])%list
  /\ html5QrCodeRef (refs (fst (fst r))) = Some h1
  /\ isScanning (ui (fst (fst r))) = true
  /\ isInitializing (ui (fst (fst r))) = false
  /\ error (ui (fst (fst r))) = None
  /\ streams (outside (fst (fst r)))
     = h1 :: (if resolved o_stop
              then filter (fun x => x ≠ h0) (streams (outside s))
              else streams (outside s)).
Proof.
  intros Hw Hg Href Hr. cbv zeta.
  unfold call, restartScannerIfNeeded. cbn. rewrite Hw. cbn.
  rewrite bool_decide_eq_true_2 by done.
  assert (negb scanning || negb (checkCameraWorking video) = true) as ->.
  { destruct Hg as [-> | ->]; [done | by destruct scanning]. }
  open_state s. cbn in *. subst ref. cbn.
  destruct o_stop as [v1 | e1]; cbn.
  - destruct o_clear as [v2 | e2]; cbn; unfold startScanner; cbn;
      rewrite Hr; cbn; rewrite ?drive_Finished; done.
  - unfold startScanner; cbn; rewrite Hr; cbn; rewrite ?drive_Finished; done.
Qed.

(** The page comes back with a dead video and a decoder that refuses
    to stop. *)
Lemma X14_witness :
  streams (outside (fst (fst
    (call (restartScannerIfNeeded true PermGranted None)
       [Rejected not_running; ok; ok; ok]
       (set_streams [0%nat]
          (set_instances 1
             (set_html5QrCodeRef (Some 0%nat)
                (set_wasScanningRef true (initial localhost)))))))))
  = [1%nat; 0%nat].
Proof.
  destruct (X14_restart_recovers true None
              (set_streams [0%nat]
                 (set_instances 1
                    (set_html5QrCodeRef (Some 0%nat)
                       (set_wasScanningRef true (initial localhost)))))
              0%nat (Rejected not_running) ok Undefined []
              eq_refl (or_intror eq_refl) eq_refl eq_refl)
    as (_ & _ & _ & _ & _ & _ & H).
  exact H.
Defined.

(** ** The automatic start *)



(** X16: on an insecure origin, or without the camera API, the
    automatic start awaits nothing and ends normally, and the only
    assignment it makes is the one of [checkSecureContext]: the state
    it leaves is the one it met with [isSecureContext] set to the test
    of the origin (so to [false] on an insecure origin).  Everything
    else, the error included, is as before. *)
Theorem X16_auto_start_needs_secure_camera (s : State) (os : list Outcome) :
  (protocol (world s) <> "https:" /\ hostname (world s) <> "localhost"
   /\ hostname (world s) <> "127.0.0.1")
  \/ mediaDevices (world s) = false ->
  call autoStartIfPermissionGranted os s
  = (setIsSecureContext
       (bool_decide (protocol (world s) = "https:")
        || (bool_decide (hostname (world s) = "localhost")
            || bool_decide (hostname (world s) = "127.0.0.1")))
       s,
     Finished tt, []).
Proof.
  intros H. unfold call, autoStartIfPermissionGranted. cbn.
  destruct H as [(Hp & Hl & Hi) | Hmd].
  - rewrite !bool_decide_eq_false_2 by done. cbn.
    by rewrite ?drive_Finished.
  - destruct (_ || _); cbn; [rewrite Hmd; cbn |];
      by rewrite ?drive_Finished.
Qed.

(** The page served from 192.168.1.5 over http: the flag, [true] in
    the initial state, is the only thing that changes. *)
Lemma X16_witness :
  call autoStartIfPermissionGranted [] (initial lan)
  = (setIsSecureContext false (initial lan), Finished tt, []).
Proof.
  assert (protocol (world (initial lan)) <> "https:"
          /\ hostname (world (initial lan)) <> "localhost"
          /\ hostname (world (initial lan)) <> "127.0.0.1") as Hw.
  { repeat split; discriminate. }
  exact (X16_auto_start_needs_secure_camera (initial lan) []
           (or_introl Hw)).
Defined.

(** X17: what the mount effect schedules.  With the Permissions API, a
    query answering ['prompt'] or ['denied'] stores the state and
    schedules nothing (the camera is not probed); ['granted'] hides the
    prompt and schedules the automatic start after 500 ms; a rejected
    query schedules it after 1000 ms.  Without the Permissions API it
    is scheduled after 1000 ms. *)
Theorem X17_mount_schedule (w : World) :
  (permissions w = true ->
   forall st, st <> PermGranted -> forall os,
     let r := call mount (Resolved (PermState st) :: os) (initial w) in
     snd (fst r) = Finished tt /\ snd r = [PermissionsQuery]
     /\ permissionStatus (ui (fst (fst r))) = st
     /\ showPermissionPrompt (ui (fst (fst r))) = true)
  /\ (permissions w = true ->
      let r := call mount [Resolved (PermState PermGranted)] (initial w) in
      snd (fst r) = Blocked (Delay 500) (fun _ => autoStartIfPermissionGranted)
      /\ permissionStatus (ui (fst (fst r))) = PermGranted
      /\ showPermissionPrompt (ui (fst (fst r))) = false)
  /\ (permissions w = true -> forall e,
      let r := call mount [Rejected e] (initial w) in
      snd (fst r) = Blocked (Delay 1000) (fun _ => autoStartIfPermissionGranted)
      /\ permissionStatus (ui (fst (fst r))) = PermPrompt)
  /\ (permissions w = false ->
      let r := call mount [] (initial w) in
      snd (fst r) = Blocked (Delay 1000) (fun _ => autoStartIfPermissionGranted)
      /\ permissionStatus (ui (fst (fst r))) = PermPrompt).
Proof.
  repeat apply conj; intros Hp; cbv zeta.
  - intros st Hst os. unfold call, mount, checkPermission. cbn.
    rewrite Hp. cbn.
    rewrite (bool_decide_eq_false_2 _ Hst). cbn. by rewrite ?drive_Finished.
  - unfold call, mount, checkPermission. cbn. rewrite Hp. cbn.
    rewrite bool_decide_eq_true_2 by done. done.
  - intros e. unfold call, mount, checkPermission. cbn. rewrite Hp. done.
  - unfold call, mount, checkPermission. cbn. rewrite Hp. done.
Qed.

(** The permission is still ['prompt'] when the page is opened. *)
Lemma X17_witness :
  snd (call mount [Resolved (PermState PermPrompt)] (initial localhost))
  = [PermissionsQuery].
Proof.
  destruct (X17_mount_schedule localhost) as (H & _).
  destruct (H eq_refl PermPrompt ltac:(discriminate) []) as (_ & H' & _).
  exact H'.
Defined.

(** ** After a stop *)

(** X18: once [stopScanning] has run to its end with no decoder
    referenced or with a decoder that stopped and cleared, the page
    does not restart the camera by itself: a visibility change (to
    hidden, visible or anything else), a focus and a pageshow, each
    run to the end of its 300 ms timer, leave the state exactly as the
    stop left it and call nothing but that timer. *)
Theorem X18_stopped_stays_stopped (s : State) (os_stop : list Outcome) :
  (html5QrCodeRef (refs s) = None
   \/ exists v1 v2 rest, os_stop = Resolved v1 :: Resolved v2 :: rest) ->
  let s1 := fst (fst (call stopScanning os_stop s)) in
  forall (video : option Video) (os : list Outcome),
    (forall vs, call (handleVisibilityChange vs video) (ok :: os) s1
                = (s1, Finished tt,
                   if bool_decide (vs = "visible") then [Delay 300] else []))
    /\ call (handleFocus video) (ok :: os) s1 = (s1, Finished tt, [Delay 300])
    /\ (forall p, call (handlePageShow p video) (ok :: os) s1
                  = (s1, Finished tt, if p then [Delay 300] else [])).
Proof.
  intros H.
  assert (wasScanningRef (refs (fst (fst (call stopScanning os_stop s))))
          = false
          /\ isScanning (ui (fst (fst (call stopScanning os_stop s)))) = false)
    as [Hw Hs].
  { unfold call, stopScanning. cbn. open_state s. cbn in *.
    destruct H as [-> | (v1 & v2 & rest & ->)]; cbn.
    - by rewrite ?drive_Finished.
    - destruct ref as [h |]; cbn; by rewrite ?drive_Finished. }
  cbv zeta. set (s1 := fst (fst (call stopScanning os_stop s))) in *.
  clearbody s1. intros video os.
  assert (call (restart_later video) (ok :: os) s1
          = (s1, Finished tt, [Delay 300])) as Hl.
  { unfold call, restart_later, restartScannerIfNeeded. cbn.
    rewrite Hw. cbn. by rewrite ?drive_Finished. }
  repeat apply conj.
  - intros vs. unfold handleVisibilityChange.
    case_bool_decide; [done |]. case_bool_decide.
    + unfold call. cbn. rewrite Hs.
      open_state s1. cbn in *. subst. by rewrite ?drive_Finished.
    + unfold call. cbn. by rewrite ?drive_Finished.
  - exact Hl.
  - intros [|]; [exact Hl |]. unfold handlePageShow, call. cbn.
    by rewrite ?drive_Finished.
Qed.

(** The window is focused on a page whose scanner was never started. *)
Lemma X18_witness :
  call (handleFocus None) [ok]
       (fst (fst (call stopScanning [] (initial localhost))))
  = (fst (fst (call stopScanning [] (initial localhost))),
     Finished tt, [Delay 300]).
Proof.
  destruct (X18_stopped_stays_stopped (initial localhost) []
              (or_introl eq_refl) None [])
    as (_ & H & _).
  exact H.
Defined.

(** ** What holds between events *)

(** A property [Inv] of the state that every handler has re-established
    whenever it waits or ends, relying on it only when it is called or
    resumed, holds in every reachable state. *)
Section Safe.
Context (Inv : State -> Prop).

Lemma run_safe {A : Type} (m : Async A) (s : State) :
  safe Inv m s ->
  Inv (fst (run m s))
  /\ match snd (run m s) with
     | Blocked c k => forall o s', Inv s' -> safe Inv (k o) (effect c o s')
     | _ => True
     end.
Proof.
  revert s. induction m as [a | e | k IH | g k IH | c k IH]; intros s Hm;
    cbn in *; try done; by apply IH.
Qed.

Lemma invoke_safe (t : Async unit) (y : Sys) :
  safe Inv t (app y) -> pool_safe Inv y ->
  Inv (app (invoke t y)) /\ pool_safe Inv (invoke t y).
Proof.
  intros Ht Hy. unfold invoke, settle.
  destruct (run_safe t (app y) Ht) as [Hi Hk].
  destruct (run t (app y)) as [s' [a | e | c k]]; cbn in *; split; try done.
  unfold pool_safe. cbn. apply Forall_app. split; [done |].
  by apply Forall_singleton.
Qed.

Lemma resolve_safe (i : nat) (o : Outcome) (y : Sys) :
  Inv (app y) -> pool_safe Inv y ->
  Inv (app (resolve i o y)) /\ pool_safe Inv (resolve i o y).
Proof.
  intros Hi Hy. unfold resolve.
  destruct (pool y !! i) as [p |] eqn:Hp; [| done].
  assert (safe Inv (p_k p o) (effect (p_call p) o (app y))) as Hs.
  { unfold pool_safe in Hy. rewrite Forall_lookup in Hy. by eapply Hy. }
  assert (Forall (fun p => forall o s', Inv s' ->
            safe Inv (p_k p o) (effect (p_call p) o s')) (delete i (pool y)))
    as Hd by (by apply Forall_delete).
  destruct (run_safe _ _ Hs) as [Hi' Hk]. unfold settle.
  destruct (run (p_k p o) _) as [s' [a | e | c k]]; cbn in *; split; try done.
  unfold pool_safe. cbn. apply Forall_app. split; [done |].
  by apply Forall_singleton.
Qed.

Hypothesis Inv_mount : forall w, safe Inv mount (initial w).
Hypothesis Inv_request : forall s, Inv s -> safe Inv requestCameraPermission s.
Hypothesis Inv_stop : forall s, Inv s -> safe Inv stopScanning s.
Hypothesis Inv_restart :
  forall sc p v s, Inv s -> safe Inv (restartScannerIfNeeded sc p v) s.
Hypothesis Inv_hidden :
  forall s, Inv s -> Inv (set_wasScanningRef (isScanning (ui s)) s).
Hypothesis Inv_onchange :
  forall st s, Inv s -> safe Inv (permission_onchange st) s.
Hypothesis Inv_scan :
  forall c r t s, Inv s -> Inv (snd (handleScanSuccess c r t s)).
Hypothesis Inv_timer : forall i s, Inv s -> Inv (fire_timer i s).

Lemma restart_later_safe v s : Inv s -> safe Inv (restart_later v) s.
Proof.
  intros Hs. unfold restart_later. cbn. split; [done |].
  intros o s' Hs'. by apply Inv_restart.
Qed.

Lemma reachable_safe (y : Sys) :
  reachable y -> Inv (app y) /\ pool_safe Inv y.
Proof.
  induction 1 as [w | e y Hr [IH1 IH2] He].
  - apply invoke_safe; [apply Inv_mount | constructor].
  - destruct e; cbn [step]; try (apply invoke_safe; auto; fail).
    + split; [by apply Inv_scan | done].
    + split; [by apply Inv_timer | done].
    + by apply resolve_safe.
    + apply invoke_safe; [| done]. unfold handleVisibilityChange.
      case_bool_decide; [by apply restart_later_safe |].
      case_bool_decide; cbn; [by apply Inv_hidden | done].
    + apply invoke_safe; [| done]. by apply restart_later_safe.
    + apply invoke_safe; [| done]. unfold handlePageShow.
      destruct persisted; [by apply restart_later_safe | done].
Qed.

End Safe.

(** Walks a handler along every branch and every outcome of its
    awaits, up to each place where it waits or ends. *)
Ltac safe_walk :=
  repeat first
    [ progress cbn
    | match goal with
      | |- _ /\ _ => split
      | |- forall _ : Outcome, _ => intros [? | ?]
      | |- forall s : State, _ =>
          let s' := fresh "s" in
          intros s'; destruct s' as [[? ? ? ? ? ? ? ? ?] [? ? ? ?] [? ? ? ?] ?]
      | |- forall _, _ => intros ?
      | |- safe _ ?m _ =>
          match m with
          | context [if ?b then _ else _] => destruct b eqn:?
          | context [match ?x with _ => _ end] => destruct x eqn:?
          end
      end ].

Ltac safe_finish :=
  cbn in *; try done; try (intros [? [=]]); try (intros ?); eauto.

Ltac safe_handler :=
  unfold mount, checkPermission, requestCameraPermission, stopScanning,
    permission_onchange, on_permission_state, restartScannerIfNeeded,
    autoStartIfPermissionGranted, startScanner, checkSecureContext,
    await_ref, new_Html5Qrcode, decoder_isScanning, throw_if, initial;
  safe_walk; safe_finish.

Lemma spinner_scan c r t s :
  spinner_ok s -> spinner_ok (snd (handleScanSuccess c r t s)).
Proof.
  unfold handleScanSuccess. destruct (debounced _ _ _); [done |].
  open_state s. unfold spinner_ok. cbn. by case_bool_decide.
Qed.

Lemma spinner_timer i s : spinner_ok s -> spinner_ok (fire_timer i s).
Proof.
  unfold fire_timer. destruct (timers (outside s) !! i); [| done].
  by open_state s.
Qed.

(** X19: in every reachable state, whenever an error is set the
    spinner flag [isInitializing] is off: every handler that sets an
    error has turned the spinner off, and every handler that turns the
    spinner on has cleared the error, before it waits or returns. *)
Theorem X19_error_hides_spinner (y : Sys) :
  reachable y ->
  is_Some (error (ui (app y))) -> isInitializing (ui (app y)) = false.
Proof.
  intros Hr. apply (reachable_safe spinner_ok); try done.
  - intros w. unfold spinner_ok. safe_handler.
  - intros s. open_state s. unfold spinner_ok. intros Hs. safe_handler.
  - intros s. open_state s. unfold spinner_ok. intros Hs. safe_handler.
  - intros sc0 p v s. open_state s. unfold spinner_ok. intros Hs.
    safe_handler.
  - intros st s. open_state s. unfold spinner_ok. intros Hs. safe_handler.
  - apply spinner_scan.
  - apply spinner_timer.
Qed.

(** The start button pressed on the page served over http. *)
Lemma X19_witness :
  exists y, exec [ClickStart] (boot lan) = Some y
    /\ isInitializing (ui (app y)) = false.
Proof.
  eexists. split; [vm_compute; reflexivity |].
  apply X19_error_hides_spinner.
  - eapply (exec_reachable [ClickStart] (boot lan));
      [apply reach_boot | vm_compute; reflexivity].
  - vm_compute. eexists. reflexivity.
Defined.

Lemma secure_scan c r t s :
  secure_ok s -> secure_ok (snd (handleScanSuccess c r t s)).
Proof.
  unfold handleScanSuccess. destruct (debounced _ _ _); [done |].
  open_state s. unfold secure_ok. cbn.
  by destruct (bool_decide (c ∈ seen)).
Qed.

Lemma secure_timer i s : secure_ok s -> secure_ok (fire_timer i s).
Proof.
  unfold fire_timer. destruct (timers (outside s) !! i); [| done].
  by open_state s.
Qed.

(** X20: once the mount effect has run, and in every state reachable
    from there, the [isSecureContext] flag, which selects the HTTPS
    warning, is true exactly when the page is served over https or from
    localhost or 127.0.0.1.  The first render, before the mount effect,
    is not covered: there the flag has its initial value [true]
    whatever the origin. *)
Theorem X20_secure_flag_reflects_origin (y : Sys) :
  reachable y ->
  (isSecureContext (ui (app y)) = true
   <-> protocol (world (app y)) = "https:"
       \/ hostname (world (app y)) = "localhost"
       \/ hostname (world (app y)) = "127.0.0.1").
Proof.
  intros Hr.
  assert (secure_ok (app y)) as Hs.
  { apply (reachable_safe secure_ok); try done.
    - intros w. unfold secure_ok. safe_handler.
    - intros s. open_state s. unfold secure_ok. intros Hs. safe_handler.
    - intros s. open_state s. unfold secure_ok. intros Hs. safe_handler.
    - intros sc0 p v s. open_state s. unfold secure_ok. intros Hs.
      safe_handler.
    - intros st s. open_state s. unfold secure_ok. intros Hs. safe_handler.
    - apply secure_scan.
    - apply secure_timer. }
  unfold secure_ok in Hs. rewrite Hs.
  rewrite !orb_true_iff, !bool_decide_eq_true. done.
Qed.

(** The page served over http, once mounted. *)
Lemma X20_witness :
  isSecureContext (ui (app (boot lan))) = true
  <-> protocol (world (app (boot lan))) = "https:"
      \/ hostname (world (app (boot lan))) = "localhost"
      \/ hostname (world (app (boot lan))) = "127.0.0.1".
Proof.
  apply (X20_secure_flag_reflects_origin (boot lan)).
  apply reach_boot.
Defined.

(** ** Rendering *)

(** X21: the scanning box is a square whose side lies between 200 and
    300 whatever the window (also when 80% of the smaller dimension is
    below 200 or above 300), and is the same for a window and the
    window turned by a quarter. *)
Theorem X21_qr_box_clamped (times_0_8 : Z -> QArith_base.Q) (w h : Z) :
  let box := getQrBoxSize times_0_8 w h in
  fst box = snd box
  /\ QArith_base.Qle (QArith_base.inject_Z 200) (fst box)
  /\ QArith_base.Qle (fst box) (QArith_base.inject_Z 300)
  /\ getQrBoxSize times_0_8 h w = box.
Proof.
  cbv zeta. unfold getQrBoxSize. cbn. repeat split.
  - apply Qminmax.Q.min_glb.
    + apply Qminmax.Q.le_max_r.
    + done.
  - apply Qminmax.Q.le_min_r.
  - by rewrite Z.min_comm.
Qed.

(** X22: the code shown for an item of the history, counted in UTF-16
    code units as [substring] counts, is the text's first 30 units at
    most followed by three dots, always: its length is
    [min 30 length + 3], its units up to the 30th are the text's, the
    three after them are dots, and a text of 30 units or fewer is
    shown whole and still followed by ["..."], as if it had been
    cut. *)
Theorem X22_history_code_ellipsis (text : list N) :
  length (history_code text) = (Nat.min 30 (length text) + 3)%nat
  /\ (forall i : nat, (i < 30)%nat -> (i < length text)%nat ->
        history_code text !! i = text !! i)
  /\ (forall j : nat, (j < 3)%nat ->
        history_code text !! (Nat.min 30 (length text) + j)%nat = Some 46%N)
  /\ ((length text <= 30)%nat ->
      history_code text = (text ++ [46; 46; 46])%list%N).
Proof.
  unfold history_code. repeat split.
  - rewrite length_app, length_take. cbn. lia.
  - intros i Hi Hl.
    rewrite lookup_app_l by (rewrite length_take; lia).
    by apply lookup_take_lt.
  - intros j Hj.
    rewrite lookup_app_r by (rewrite length_take; lia).
    rewrite length_take.
    replace (30 `min` length text + j - 30 `min` length text)%nat
      with j by lia.
    by destruct j as [| [| [| j]]]; [| | | lia].
  - intros H. by rewrite take_ge.
Qed.

(** A one-letter ticket code, [A] being the unit 65. *)
Lemma X22_witness :
  history_code [65%N] = [65; 46; 46; 46]%N.
Proof.
  apply (X22_history_code_ellipsis [65%N]).
  vm_compute. lia.
Defined.
